(** * EESSI build-and-deploy bot: event dispatch and comment-command protocol

    A shallow embedding of [eessi_bot_event_handler.py] (class
    [EESSIBotSoftwareLayer]) together with the collaborators it imports
    from [tools/commands.py], [tools/permissions.py], [tools/pr_comments.py]
    and [tasks/]. Python strings are [string]s, the remote comment store
    and the log sink are an explicit [World] threaded through a small
    state-and-exception monad. *)

From Stdlib Require Import String Ascii List Bool Arith ZArith Lia.
From Stdlib Require Import Numbers.DecimalString.
Import ListNotations.
Open Scope list_scope.
Open Scope string_scope.

(** ** Python string primitives *)

Module PyStr.

(** [s[n:]] for [0 <= n]. *)
Fixpoint slice_from (n : nat) (s : string) : string :=
  match n, s with
  | O, _ => s
  | S _, EmptyString => EmptyString
  | S k, String _ r => slice_from k r
  end.

(** [s.split(sep)] for a one-character separator: never the empty list. *)
Fixpoint split (sep : ascii) (s : string) : list string :=
  match s with
  | EmptyString => [EmptyString]
  | String c r =>
      if Ascii.eqb c sep then EmptyString :: split sep r
      else match split sep r with
           | [] => [String c EmptyString]
           | h :: t => String c h :: t
           end
  end.

Definition newline : ascii := "010"%char.

(** [s.split('\n')]. *)
Definition lines (s : string) : list string := split newline s.

(** Truth value of an [Optional[str]]: [None] and [''] are false. *)
Definition truthy (o : option string) : bool :=
  match o with
  | None => false
  | Some EmptyString => false
  | Some (String _ _) => true
  end.

(** [any(map(f, xs))]. *)
Definition any_map (f : string -> option string) (xs : list string) : bool :=
  existsb (fun x => truthy (f x)) xs.

Definition is_space (c : ascii) : bool :=
  let n := nat_of_ascii c in
  ((n =? 32) || ((9 <=? n) && (n <=? 13)))%nat.

Fixpoint lstrip (s : string) : string :=
  match s with
  | EmptyString => EmptyString
  | String c r => if is_space c then lstrip r else s
  end.

Fixpoint rstrip (s : string) : string :=
  match s with
  | EmptyString => EmptyString
  | String c r =>
      match rstrip r with
      | EmptyString => if is_space c then EmptyString else String c EmptyString
      | r' => String c r'
      end
  end.

(** [s.strip()]. *)
Definition strip (s : string) : string := rstrip (lstrip s).

(** [s.split()]: maximal runs of non-space characters. The accumulator
    [cur] is the run being read. *)
Fixpoint words_from (cur : string) (s : string) : list string :=
  match s with
  | EmptyString => match cur with EmptyString => [] | _ => [cur] end
  | String c r =>
      if is_space c
      then match cur with
           | EmptyString => words_from EmptyString r
           | _ => cur :: words_from EmptyString r
           end
      else words_from (cur ++ String c EmptyString) r
  end.

Definition words (s : string) : list string := words_from EmptyString s.

(** [sep.join(xs)]. *)
Fixpoint join (sep : string) (xs : list string) : string :=
  match xs with
  | [] => EmptyString
  | [x] => x
  | x :: r => x ++ sep ++ join sep r
  end.

(** [sub in s]. *)
Fixpoint contains (sub s : string) : bool :=
  String.prefix sub s ||
  match s with
  | EmptyString => false
  | String _ r => contains sub r
  end.

(** [c in s] for a character. *)
Fixpoint mem (c : ascii) (s : string) : bool :=
  match s with
  | EmptyString => false
  | String d r => Ascii.eqb d c || mem c r
  end.

(** [str(n)] for an integer. *)
Definition of_Z (n : Z) : string := NilZero.string_of_int (Z.to_int n).

End PyStr.

(** ** tools/commands.py *)

Module tools_commands.

(** Modelled from the spec: the fixed prefix token of CommandMatcher,
    [bot:] ([tools/commands.py] is not part of the sources at hand). *)
Definition prefix_token : string := "bot:".

(** Modelled from the spec: the recognized command keywords. The spec
    names none; the comments of [handle_issue_comment_event] (lines 69-71)
    name [bot: rebuild], [bot: cancel] and [bot: disable]. *)
Definition keywords : list string := ["rebuild"; "cancel"; "disable"].

(** Modelled from the spec: a recognized command keyword. *)
Definition is_keyword (w : string) : bool := existsb (String.eqb w) keywords.

(** Modelled from the spec: a [key:value] modifier such as [arch:intel],
    [instance:AWS] or [job:<id>]: one colon, with a non-empty key and a
    non-empty value. *)
Definition is_modifier (w : string) : bool :=
  match PyStr.split ":"%char w with
  | [k; v] => negb (k =? "") && negb (v =? "")
  | _ => false
  end.

(** Modelled from the spec: [tools/commands.py] (function
    [get_bot_command], the spec's CommandMatcher) is not part of the
    sources at hand. A line matches if, after removing leading and
    trailing whitespace, it begins with the prefix token, followed by a
    recognized command keyword and optional [key:value] modifiers; the
    result is prefix, keyword and modifiers with whitespace collapsed,
    or nothing. *)
Definition get_bot_command (line : string) : option string :=
  let s := PyStr.strip line in
  if String.prefix prefix_token s then
    match PyStr.words (PyStr.slice_from (String.length prefix_token) s) with
    | kw :: mods =>
        if is_keyword kw && forallb is_modifier mods
        then Some (PyStr.join " " (prefix_token :: kw :: mods))
        else None
    | [] => None
    end
  else None.

End tools_commands.

(** ** Effects: exceptions, the remote comment store, the log sink *)

Inductive exn : Type :=
| KeyError (key : string)
| UnboundLocalError (name : string)
| AttributeError (msg : string)
| TypeError (msg : string)
| RemoteError (what : string).

(** A Python value passed where a string is expected. *)
Inductive py_value : Type :=
| PyString (s : string)
| PyInt (n : Z).

(** An [IssueComment] object: the id it was fetched by and the body it
    had when fetched. *)
Record IssueComment : Type := { ic_id : Z; ic_body : string }.

(** What one call of [get_issue_comment] does: it raises, it answers that
    there is no such comment, or it answers with the comment. *)
Inductive fetch_outcome : Type :=
| FetchRaises (e : exn)
| FetchNone
| FetchComment.

(** Calls into [tasks/build.py] and [tasks/deploy.py], and comments
    created on a pull request. *)
Inductive task_call : Type :=
| SubmitBuildJobs (pr_number : Z)
| DeployBuiltArtefacts (pr_number : Z)
| CreateIssueComment (pr_number : Z) (body : string).

(** The world outside the handler. [fetch_plan k] and [edit_plan k] say
    how the remote answers the [k]-th fetch and the [k]-th edit (counted
    from 0); an edit plan of [None] is a successful write. *)
Record World : Type := {
  store : Z -> string;
  fetch_plan : nat -> fetch_outcome;
  edit_plan : nat -> option exn;
  fetch_calls : nat;
  edit_calls : nat;
  tasks : list task_call;
  logs : list string
}.

Inductive result (A : Type) : Type :=
| Ok (a : A)
| Raised (e : exn).
Arguments Ok {A} a.
Arguments Raised {A} e.

Definition M (A : Type) : Type := World -> result A * World.

Definition ret {A} (a : A) : M A := fun w => (Ok a, w).

Definition raise {A} (e : exn) : M A := fun w => (Raised e, w).

Definition bind {A B} (m : M A) (k : A -> M B) : M B :=
  fun w => match m w with
           | (Ok a, w') => k a w'
           | (Raised e, w') => (Raised e, w')
           end.

(** [try: m except Exception as e: h e]. *)
Definition try_except {A} (m : M A) (h : exn -> M A) : M A :=
  fun w => match m w with
           | (Ok a, w') => (Ok a, w')
           | (Raised e, w') => h e w'
           end.

Declare Scope bot_scope.
Delimit Scope bot_scope with bot.
Notation "x <- m ;; k" := (bind m (fun x => k))
  (at level 61, m at next level, right associativity) : bot_scope.
Notation "m ;; k" := (bind m (fun _ => k))
  (at level 61, right associativity) : bot_scope.
Open Scope bot_scope.

Definition add_log (w : World) (msg : string) : World :=
  {| store := store w; fetch_plan := fetch_plan w; edit_plan := edit_plan w;
     fetch_calls := fetch_calls w; edit_calls := edit_calls w;
     tasks := tasks w; logs := logs w ++ [msg] |}.

Definition add_task (w : World) (t : task_call) : World :=
  {| store := store w; fetch_plan := fetch_plan w; edit_plan := edit_plan w;
     fetch_calls := fetch_calls w; edit_calls := edit_calls w;
     tasks := tasks w ++ [t]; logs := logs w |}.

Definition count_fetch (w : World) : World :=
  {| store := store w; fetch_plan := fetch_plan w; edit_plan := edit_plan w;
     fetch_calls := S (fetch_calls w); edit_calls := edit_calls w;
     tasks := tasks w; logs := logs w |}.

Definition count_edit (w : World) : World :=
  {| store := store w; fetch_plan := fetch_plan w; edit_plan := edit_plan w;
     fetch_calls := fetch_calls w; edit_calls := S (edit_calls w);
     tasks := tasks w; logs := logs w |}.

Definition write_store (w : World) (id : Z) (body : string) : World :=
  {| store := fun i => if Z.eqb i id then body else store w i;
     fetch_plan := fetch_plan w; edit_plan := edit_plan w;
     fetch_calls := fetch_calls w; edit_calls := edit_calls w;
     tasks := tasks w; logs := logs w |}.

(** [pyghee.utils.log(msg, log_file)]: the message reaches the sink. *)
Definition log (msg : string) : M unit := fun w => (Ok tt, add_log w msg).

(** [pull_request.get_issue_comment(id)]: one answer of the remote per
    call. *)
Definition get_issue_comment (id : Z) : M (option IssueComment) :=
  fun w =>
    let w' := count_fetch w in
    match fetch_plan w (fetch_calls w) with
    | FetchRaises e => (Raised e, w')
    | FetchNone => (Ok None, w')
    | FetchComment => (Ok (Some {| ic_id := id; ic_body := store w id |}), w')
    end.

(** [issue_comment.edit(body)]: on success the remote body is replaced. *)
Definition edit (c : IssueComment) (body : string) : M unit :=
  fun w =>
    let w' := count_edit w in
    match edit_plan w (edit_calls w) with
    | Some e => (Raised e, w')
    | None => (Ok tt, write_store w' (ic_id c) body)
    end.

(** [submit_build_jobs], [deploy_built_artefacts], [create_issue_comment]:
    the call is recorded. *)
Definition call_task (t : task_call) : M unit := fun w => (Ok tt, add_task w t).

(** ** Webhook payloads *)

(** The fields of an event's [raw_request_body] that the handlers read.
    [changes.body.from] is present on edits only and [label.name] on
    label events only; reading an absent key raises [KeyError]. *)
Record RequestBody : Type := {
  rb_action : string;
  rb_issue_url : string;
  rb_issue_number : Z;
  rb_sender_login : string;
  rb_comment_user_login : string;
  rb_comment_body : string;
  rb_comment_id : Z;
  rb_changes_body_from : option string;
  rb_repository_full_name : string;
  rb_label_name : option string;
  rb_pull_request_number : Z
}.

Record EventInfo : Type := {
  ei_action : string;
  ei_raw_request_body : RequestBody
}.

(** A [github.PullRequest] as the handlers use it; [pr_str] is [str(pr)]. *)
Record PullRequest : Type := {
  pr_number : Z;
  pr_base_repo_full_name : string;
  pr_str : string
}.

Definition nl : string := String PyStr.newline EmptyString.

Definition key {A} (name : string) (o : option A) : M A :=
  match o with
  | Some a => ret a
  | None => raise (KeyError name)
  end.

(** ** eessi_bot_event_handler.py: class EESSIBotSoftwareLayer *)

Module EESSIBotSoftwareLayer.

Section Handlers.

(** [tools.permissions.check_command_permission]. *)
Variable check_command_permission : string -> bool.
(** [tools.commands.get_bot_command]. *)
Variable get_bot_command : string -> option string.
(** [tasks.build.check_build_permission]. *)
Variable check_build_permission : PullRequest -> EventInfo -> bool.
(** [self.cfg['github']['app_name']] and
    [get_repo_cfg(self.cfg)['repo_target_map']], in key order. *)
Variable app_name : string.
Variable repo_target_map : list (string * list string).

(** [self.log(msg)] called from the method [funcname]. *)
Definition self_log (funcname msg : string) : M unit :=
  log ("[" ++ funcname ++ "]: " ++ msg).

(** Lines 96-112: determine what is new in the comment. The result is
    [comment_diff] and [comment_new], the latter unbound ([None]) when
    the action is neither [created] nor [edited]. *)
Definition determine_diff (request_body : RequestBody)
  : M (string * option string) :=
  let fn := "handle_issue_comment_event" in
  let action := rb_action request_body in
  let comment_diff := "" in
  if action =? "created" then
    let comment_old := "" in
    let comment_new := rb_comment_body request_body in
    let comment_diff := PyStr.slice_from (String.length comment_old) comment_new in
    self_log fn ("comment created: '" ++ comment_diff ++ "'") ;;
    ret (comment_diff, Some comment_new)
  else if action =? "edited" then
    comment_old <- key "changes" (rb_changes_body_from request_body) ;;
    self_log fn ("comment edited: OLD '" ++ comment_old ++ "'") ;;
    let comment_new := rb_comment_body request_body in
    self_log fn ("comment edited: NEW '" ++ comment_new ++ "'") ;;
    comment_diff <-
      (if Nat.ltb (String.length comment_old) (String.length comment_new) then
         ret (PyStr.slice_from (String.length comment_old) comment_new)
       else
         self_log fn "comment edited: NEW shorter than OLD (assume cleanup -> no action)" ;;
         ret comment_diff) ;;
    self_log fn ("comment edited: DIFF '" ++ comment_diff ++ "'") ;;
    ret (comment_diff, Some comment_new)
  else ret (comment_diff, None).

(** Lines 118-127: the loop over the lines of the diff, with the
    [comment_update] built so far. *)
Fixpoint search_commands (sender : string) (diff_lines : list string)
  (comment_update : string) : M string :=
  let fn := "handle_issue_comment_event" in
  match diff_lines with
  | [] => ret comment_update
  | line :: rest =>
      self_log fn ("searching line '" ++ line ++ "' for bot command") ;;
      match get_bot_command line with
      | Some (String _ _ as bot_command) =>
          self_log fn ("found bot command: '" ++ bot_command ++ "'") ;;
          let comment_update := comment_update ++ (nl ++ "- received bot command ") in
          let comment_update := comment_update ++ ("`" ++ bot_command ++ "`") in
          let comment_update := comment_update ++ (" from `" ++ sender ++ "`") in
          search_commands sender rest comment_update
      | _ =>
          self_log fn ("'" ++ line ++ "' is not considered to contain a bot command") ;;
          search_commands sender rest comment_update
      end
  end.

(** Lines 138-154: the self-command guard and the write. The reads
    [gh.get_repo] and [repo.get_pull] of lines 147-148 count as part of
    the fetch of line 149: what they raise is an answer of
    [get_issue_comment]. *)
Definition update_pr_comment (request_body : RequestBody)
  (comment_new : option string) (comment_update : string) : M unit :=
  let fn := "handle_issue_comment_event" in
  (if negb (PyStr.any_map get_bot_command (PyStr.lines comment_update)) then
     let issue_id := rb_comment_id request_body in
     issue_comment <- get_issue_comment issue_id ;;
     match issue_comment with
     | None => raise (AttributeError "'NoneType' object has no attribute 'edit'")
     | Some issue_comment =>
         match comment_new with
         | None => raise (UnboundLocalError "comment_new")
         | Some comment_new => edit issue_comment (comment_new ++ comment_update)
         end
     end
   else
     self_log fn ("update '" ++ comment_update
                  ++ "' is considered to contain bot command ... not updating PR comment")) ;;
  self_log fn "issue_comment event handled!".

Definition handle_issue_comment_event (event_info : EventInfo) : M unit :=
  let fn := "handle_issue_comment_event" in
  let request_body := ei_raw_request_body event_info in
  let issue_url := rb_issue_url request_body in
  let action := rb_action request_body in
  let sender := rb_sender_login request_body in
  let owner := rb_comment_user_login request_body in
  let txt := rb_comment_body request_body in
  self_log fn ("Comment in " ++ issue_url ++ " (owned by @" ++ owner ++ ") "
               ++ action ++ " by @" ++ sender ++ ": " ++ txt) ;;
  if check_command_permission sender then
    self_log fn ("account `" ++ sender ++ "` has no permission to send commands to bot")
  else
    diff <- determine_diff request_body ;;
    let '(comment_diff, comment_new) := diff in
    comment_update <- search_commands sender (PyStr.lines comment_diff) "" ;;
    self_log fn ("comment update: '" ++ comment_update ++ "'") ;;
    if comment_update =? "" then
      self_log fn "update to comment is empty"
    else
      update_pr_comment request_body comment_new comment_update.

Definition handle_installation_event (event_info : EventInfo) : M unit :=
  let fn := "handle_installation_event" in
  let request_body := ei_raw_request_body event_info in
  let user := rb_sender_login request_body in
  let action := rb_action request_body in
  self_log fn ("App installation event by user " ++ user
               ++ " with action '" ++ action ++ "'") ;;
  self_log fn "installation event handled!".

Definition handle_pull_request_labeled_event (event_info : EventInfo)
  (pr : PullRequest) : M unit :=
  let fn := "handle_pull_request_labeled_event" in
  label <- key "label" (rb_label_name (ei_raw_request_body event_info)) ;;
  self_log fn ("Process PR labeled event: PR#" ++ PyStr.of_Z (pr_number pr)
               ++ ", label '" ++ label ++ "'") ;;
  if label =? "bot:build" then
    if check_build_permission pr event_info then
      call_task (SubmitBuildJobs (pr_number pr))
    else ret tt
  else if label =? "bot:deploy" then
    call_task (DeployBuiltArtefacts (pr_number pr))
  else
    self_log fn ("handle_pull_request_labeled_event: no handler for label '"
                 ++ label ++ "'").

(** ['/'.join(arch.split('/')[1:])]. *)
Definition arch_tail (arch : string) : string :=
  PyStr.join "/" (tl (PyStr.split "/"%char arch)).

Definition handle_pull_request_opened_event (event_info : EventInfo)
  (pr : PullRequest) : M unit :=
  let fn := "handle_pull_request_opened_event" in
  self_log fn "PR opened: waiting for label bot:build" ;;
  let comment := "Instance `" ++ app_name ++ "` is configured to build:" in
  let comment :=
    fold_left
      (fun comment '(arch, repo_ids) =>
         fold_left
           (fun comment repo_id =>
              comment ++ (nl ++ "- arch `" ++ arch_tail arch
                          ++ "` for repo `" ++ repo_id ++ "`"))
           repo_ids comment)
      repo_target_map comment in
  self_log fn ("PR opened: comment '" ++ comment ++ "'") ;;
  call_task (CreateIssueComment (pr_number pr) comment).

(** [handle_pull_request_event]: the handler is looked up by the name
    [handle_pull_request_<action>_event]; the class has one for
    [labeled] and one for [opened]. *)
Definition handle_pull_request_event (event_info : EventInfo)
  (pr : PullRequest) : M unit :=
  let fn := "handle_pull_request_event" in
  let action := ei_action event_info in
  self_log fn ("repository: '"
               ++ rb_repository_full_name (ei_raw_request_body event_info) ++ "'") ;;
  self_log fn ("PR data: " ++ pr_str pr) ;;
  if action =? "labeled" then
    self_log fn ("Handling PR action '" ++ action ++ "' for PR #"
                 ++ PyStr.of_Z (pr_number pr) ++ "...") ;;
    handle_pull_request_labeled_event event_info pr
  else if action =? "opened" then
    self_log fn ("Handling PR action '" ++ action ++ "' for PR #"
                 ++ PyStr.of_Z (pr_number pr) ++ "...") ;;
    handle_pull_request_opened_event event_info pr
  else
    self_log fn ("No handler for PR action '" ++ action ++ "'").

End Handlers.

End EESSIBotSoftwareLayer.

(** ** tools/pr_comments.py *)

Module tools_pr_comments.

(** Modelled from the spec: [old_body + new_suffix], the body handed to
    the write; a suffix of the wrong type makes the write fail (in Python
    the concatenation raises [TypeError]). *)
Definition concat_body (old_body : string) (new_suffix : py_value) : M string :=
  match new_suffix with
  | PyString s => ret (old_body ++ s)
  | PyInt _ => raise (TypeError "can only concatenate str (not 'int') to str")
  end.

(** Modelled from the spec: [<new_suffix>] as it appears in the
    diagnostic, that is [str(new_suffix)]. *)
Definition str (v : py_value) : string :=
  match v with
  | PyString s => s
  | PyInt n => PyStr.of_Z n
  end.

(** Modelled from the spec: the fetch phase of [update_comment]
    ([tools/pr_comments.py] is not part of the sources at hand). Fetch
    the comment, retrying on any fetch failure up to [attempts] attempts
    in total; when the last attempt fails its failure is propagated. *)
Fixpoint fetch_with_retries (cmnt_id : Z) (attempts : nat)
  : M (option IssueComment) :=
  match attempts with
  | O => ret None
  | S k =>
      try_except (get_issue_comment cmnt_id)
        (fun e => match k with
                  | O => raise e
                  | S _ => fetch_with_retries cmnt_id k
                  end)
  end.

(** Modelled from the spec: the write phase of [update_comment]. Each
    write attempt fetches the comment anew (with the fetch phase's own
    budget of [max_retries]); an absent comment is logged and ends the
    call successfully; a failed write is retried while [attempts] last
    and the last failure is propagated. *)
Fixpoint write_with_retries (cmnt_id : Z) (new_suffix : py_value)
  (max_retries attempts : nat) : M unit :=
  match attempts with
  | O => ret tt
  | S k =>
      issue_comment <- fetch_with_retries cmnt_id max_retries ;;
      match issue_comment with
      | None =>
          log ("no comment with id " ++ PyStr.of_Z cmnt_id
               ++ ", skipping update '" ++ str new_suffix ++ "'")
      | Some issue_comment =>
          try_except
            (body <- concat_body (ic_body issue_comment) new_suffix ;;
             edit issue_comment body)
            (fun e => match k with
                      | O => raise e
                      | S _ => write_with_retries cmnt_id new_suffix max_retries k
                      end)
      end
  end.

(** Modelled from the spec: [update_comment(cmnt_id, pr, update)] of
    [tools/pr_comments.py], the spec's CommentUpdater, with a budget of
    [max_retries] attempts for the fetch phase and for the write phase. *)
Definition update_comment (cmnt_id : Z) (new_suffix : py_value)
  (max_retries : nat) : M unit :=
  write_with_retries cmnt_id new_suffix max_retries max_retries.

End tools_pr_comments.


(** ** Derived notions used to state the properties *)

(** The world [w] with the messages [l] added to the log sink. *)
Definition add_logs (w : World) (l : list string) : World :=
  {| store := store w; fetch_plan := fetch_plan w; edit_plan := edit_plan w;
     fetch_calls := fetch_calls w; edit_calls := edit_calls w;
     tasks := tasks w; logs := logs w ++ l |}.

(** The world [w] after [k] more fetch calls, and after [k] more edit
    calls. *)
Definition add_fetches (w : World) (k : nat) : World :=
  {| store := store w; fetch_plan := fetch_plan w; edit_plan := edit_plan w;
     fetch_calls := fetch_calls w + k; edit_calls := edit_calls w;
     tasks := tasks w; logs := logs w |}.

Definition add_edits (w : World) (k : nat) : World :=
  {| store := store w; fetch_plan := fetch_plan w; edit_plan := edit_plan w;
     fetch_calls := fetch_calls w; edit_calls := edit_calls w + k;
     tasks := tasks w; logs := logs w |}.

(** The next [n] fetches all raise, [raised] giving the exception of each
    call; the next [n] fetches all answer with the comment; the next [n]
    edits all raise. *)
Definition fetches_fail (w : World) (n : nat) (raised : nat -> exn) : Prop :=
  forall i, i < n ->
    fetch_plan w (fetch_calls w + i) = FetchRaises (raised (fetch_calls w + i)).

Definition fetches_answer (w : World) (n : nat) : Prop :=
  forall i, i < n -> fetch_plan w (fetch_calls w + i) = FetchComment.

Definition edits_fail (w : World) (n : nat) (raised : nat -> exn) : Prop :=
  forall i, i < n ->
    edit_plan w (edit_calls w + i) = Some (raised (edit_calls w + i)).

(** Between [w] and [w'] some edit call was accepted by the remote. *)
Definition wrote (w w' : World) : Prop :=
  exists k, edit_calls w <= k < edit_calls w' /\ edit_plan w k = None.

(** A computation that only writes to the log and whose result does not
    depend on the world. *)
Definition logs_only {A} (m : M A) (r : result A) : Prop :=
  exists l, forall w, m w = (r, add_logs w l).

(** The commands the loop of [handle_issue_comment_event] finds in the
    given lines, in order. *)
Definition commands_in (get_bot_command : string -> option string)
  (diff_lines : list string) : list string :=
  flat_map (fun line => match get_bot_command line with
                        | Some (String _ _ as bot_command) => [bot_command]
                        | _ => []
                        end) diff_lines.

(** The text the loop adds to [comment_update] for one command. *)
Definition segment (sender bot_command : string) : string :=
  (nl ++ "- received bot command ")
    ++ ("`" ++ bot_command ++ "`") ++ (" from `" ++ sender ++ "`").

(** The same text without its leading line break: one line of the
    annotation. *)
Definition segment_line (sender bot_command : string) : string :=
  "- received bot command "
    ++ ("`" ++ bot_command ++ "`") ++ (" from `" ++ sender ++ "`").

Definition concat_all (xs : list string) : string := fold_right append "" xs.

(** The [comment_update] composed for a diff. *)
Definition annotation (get_bot_command : string -> option string)
  (sender comment_diff : string) : string :=
  concat_all (map (segment sender)
                (commands_in get_bot_command (PyStr.lines comment_diff))).

(** A matcher is anchored when it yields nothing for a line whose
    stripped form does not begin with the prefix token. *)
Definition anchored (get_bot_command : string -> option string) : Prop :=
  forall line,
    String.prefix tools_commands.prefix_token (PyStr.strip line) = false ->
    PyStr.truthy (get_bot_command line) = false.

(** The commands a matcher yields hold no line break. *)
Definition one_line_commands (get_bot_command : string -> option string) : Prop :=
  forall line c, get_bot_command line = Some c -> PyStr.mem PyStr.newline c = false.

(** ** Sample events and worlds *)

Module Samples.

(** A remote that answers every fetch with the comment and accepts
    every edit; every comment reads [__ORG-comment__]. *)
Definition calm : World :=
  {| store := fun _ => "__ORG-comment__";
     fetch_plan := fun _ => FetchComment;
     edit_plan := fun _ => None;
     fetch_calls := 0; edit_calls := 0; tasks := []; logs := [] |}.

(** The remote of [calm] with given answers to fetches and edits. *)
Definition remote (fetches : nat -> fetch_outcome) (edits : nat -> option exn)
  : World :=
  {| store := store calm; fetch_plan := fetches; edit_plan := edits;
     fetch_calls := 0; edit_calls := 0; tasks := []; logs := [] |}.

Definition comment_event (action sender body : string) (old : option string)
  : EventInfo :=
  {| ei_action := action;
     ei_raw_request_body :=
       {| rb_action := action;
          rb_issue_url := "https://api.github.com/repos/EESSI/software-layer/issues/7";
          rb_issue_number := 7;
          rb_sender_login := sender;
          rb_comment_user_login := "contributor";
          rb_comment_body := body;
          rb_comment_id := 1001;
          rb_changes_body_from := old;
          rb_repository_full_name := "EESSI/software-layer";
          rb_label_name := None;
          rb_pull_request_number := 7 |} |}.

Definition labeled_event (label : string) : EventInfo :=
  {| ei_action := "labeled";
     ei_raw_request_body :=
       {| rb_action := "labeled";
          rb_issue_url := "";
          rb_issue_number := 7;
          rb_sender_login := "maintainer";
          rb_comment_user_login := "";
          rb_comment_body := "";
          rb_comment_id := 0;
          rb_changes_body_from := None;
          rb_repository_full_name := "EESSI/software-layer";
          rb_label_name := Some label;
          rb_pull_request_number := 7 |} |}.

Definition pr7 : PullRequest :=
  {| pr_number := 7;
     pr_base_repo_full_name := "EESSI/software-layer";
     pr_str := "PullRequest(title='add software', number=7)" |}.

(** Modelled from the spec: a SenderAuthorizer, [is_authorized(login)]
    ([tools/permissions.py] is not part of the sources at hand). Here
    [maintainer] may send commands and nobody else, in particular not the
    bot's own account. *)
Definition is_authorized (login : string) : bool := login =? "maintainer".

(** A matcher that is not anchored: the prefix token anywhere in the
    line makes the line a command. *)
Definition loose_matcher (line : string) : option string :=
  if PyStr.contains "bot:" line then Some line else None.

(** A login that spans three lines, the second being a command. *)
Definition three_line_login : string := "x" ++ nl ++ "bot: rebuild" ++ nl.

Definition GetIssueCommentException : exn := RemoteError "GetIssueCommentException".
Definition EditIssueCommentException : exn := RemoteError "EditIssueCommentException".

(** The mocks of [tests/test_tools_pr_comments.py]: a pull request
    whose [get_issue_comment] always raises, one whose comment refuses
    every edit, one that has no comment, and one whose
    [get_issue_comment] raises once and then answers. *)
Definition fetch_always_raises : World :=
  remote (fun _ => FetchRaises GetIssueCommentException) (fun _ => None).

Definition edit_always_raises : World :=
  remote (fun _ => FetchComment) (fun _ => Some EditIssueCommentException).

Definition no_comment : World :=
  remote (fun _ => FetchNone) (fun _ => None).

Definition fetch_raises_once : World :=
  remote (fun k => match k with
                   | O => FetchRaises GetIssueCommentException
                   | S _ => FetchComment
                   end)
         (fun _ => None).

End Samples.

From Stdlib Require DecimalFacts DecimalPos DecimalZ.

(** ** Derived notions for the pull request comment *)

(** One line of the comment of [handle_pull_request_opened_event]. *)
Definition target_line (arch repo_id : string) : string :=
  "- arch `" ++ EESSIBotSoftwareLayer.arch_tail arch ++ "` for repo `" ++ repo_id ++ "`".

(** The lines of that comment after its heading: one per architecture
    and repository, in the order of the map. *)
Definition target_lines (repo_target_map : list (string * list string)) : list string :=
  flat_map (fun '(arch, repo_ids) => map (target_line arch) repo_ids) repo_target_map.

(** A target map of two architectures and three repositories. *)
Definition sample_targets : list (string * list string) :=
  [("linux/x86_64/generic", ["eessi-2023.06"; "eessi.io-2023.06"]);
   ("linux/aarch64/generic", ["eessi-2023.06"])].

(** A [pull_request] event with the given action and no label. *)
Definition pull_request_event (action : string) : EventInfo :=
  {| ei_action := action;
     ei_raw_request_body :=
       {| rb_action := action;
          rb_issue_url := "";
          rb_issue_number := 7;
          rb_sender_login := "contributor";
          rb_comment_user_login := "";
          rb_comment_body := "";
          rb_comment_id := 0;
          rb_changes_body_from := None;
          rb_repository_full_name := "EESSI/software-layer";
          rb_label_name := None;
          rb_pull_request_number := 7 |} |}.

(** ** Python names *)

(** A local variable that may not have been assigned yet: reading it
    unassigned raises [UnboundLocalError]. *)
Definition local {A} (name : string) (value : option A) : M A :=
  match value with
  | Some a => ret a
  | None => raise (UnboundLocalError name)
  end.

(** The options the two [main] functions read; [opts.file] is [None] or
    a string, and counts as given when it is a non-empty string. *)
Record Opts : Type := {
  opts_file : option string;
  opts_cron : bool;
  opts_port : Z
}.

(** ** eessi_bot_event_handler.py: main *)

Module event_handler.

Section Main.

(** The app object of [pyghee.lib.create_app] and the event read from a
    file. *)
Variables App Event : Type.
(** [config.read_config()] and [github.connect()]. *)
Variable read_config : M unit.
Variable connect : M unit.
(** [create_app(klass=EESSIBotSoftwareLayer)], [read_event_from_json],
    [get_event_info], and the methods [handle_event], [log] and [start]
    of the app. *)
Variable create_app : M App.
Variable read_event_from_json : string -> M Event.
Variable get_event_info : Event -> M EventInfo.
Variable handle_event : App -> EventInfo -> M unit.
Variable app_log : App -> string -> M unit.
Variable start : App -> Z -> M unit.

(** [main()], lines 251-269, for the options [opts] that
    [event_handler_parse()] returned. The local variable [app] is
    assigned in the first and in the last branch only. *)
Definition main (opts : Opts) : M unit :=
  read_config ;;
  connect ;;
  let app : option App := None in
  match opts_file opts with
  | Some (String _ _ as file) =>
      a <- create_app ;;
      let app := Some a in
      event <- read_event_from_json file ;;
      event_info <- get_event_info event ;;
      a <- local "app" app ;;
      handle_event a event_info
  | _ =>
      if opts_cron opts then
        a <- local "app" app ;;
        app_log a "Running in cron mode"
      else
        a <- create_app ;;
        let app := Some a in
        a <- local "app" app ;;
        start a (opts_port opts)
  end.

End Main.

End event_handler.

(** ** eessi_bot_software_layer.py *)

Module software_layer.

(** A request: the lookup [request.headers[name]] and the payload. *)
Record Request : Type := {
  req_header : string -> option string;
  req_json : RequestBody
}.

(** A [flask.Response]. *)
Record Response : Type := {
  resp_body : string;
  resp_status : Z;
  resp_mimetype : string
}.

Section Layer.

(** [handlers.event_handlers.get], [json.dumps] of a dictionary of
    strings, and [tools.logging.log_event]. *)
Variable event_handlers : string -> option (Request -> M unit).
Variable json_dumps : list (string * string) -> string.
Variable log_event : Request -> M unit.
(** [args.parse()] gives the options; [config.read_file],
    [github.connect], [read_event_from_json], and serving the app of
    [create_app()]. *)
Variable read_file : string -> M unit.
Variable connect : M unit.
Variable read_event_from_json : string -> M Request.
Variable run_app : M unit.

(** [handle_event(request)], lines 40-53: the value is [None] when a
    handler was found. *)
Definition handle_event (request : Request) : M (option Response) :=
  event_type <- key "X-GitHub-Event" (req_header request "X-GitHub-Event") ;;
  match event_handlers event_type with
  | Some event_handler =>
      event_handler request ;;
      ret None
  | None =>
      log ("Unsupported event type: " ++ event_type) ;;
      let response_data := [("Unsupported event type", event_type)] in
      let response_object := json_dumps response_data in
      ret (Some {| resp_body := response_object;
                   resp_status := 400;
                   resp_mimetype := "application/json" |})
  end.

(** The route [/] of [create_app()], lines 62-67: the event is logged
    and not handled. *)
Definition route_main (request : Request) : M string :=
  log_event request ;;
  ret "".

(** [main()], lines 73-90. *)
Definition main (opts : Opts) : M unit :=
  read_file "app.cfg" ;;
  connect ;;
  match opts_file opts with
  | Some (String _ _ as file) =>
      event <- read_event_from_json file ;;
      log_event event ;;
      handle_event event ;;
      ret tt
  | _ =>
      if opts_cron opts then log "Running in cron mode"
      else run_app
  end.

End Layer.

End software_layer.

(** ** tests/test_tools_pr_comments.py: the failing pull request *)

Module test_tools_pr_comments.

(** [MockIssueComment]: a body and the exception its [edit] raises, if
    any. *)
Record MockIssueComment : Type := {
  body : string;
  edit_raises : option exn
}.

(** [MockIssueComment.edit(body)], lines 30-33. *)
Definition mock_edit (c : MockIssueComment) (new_body : string)
  : result unit * MockIssueComment :=
  match edit_raises c with
  | Some e => (Raised e, c)
  | None => (Ok tt, {| body := new_body; edit_raises := edit_raises c |})
  end.









End test_tools_pr_comments.




(** * Properties *)

(** ** Python string primitives *)

Example split_empty : PyStr.lines "" = [""].
Proof. reflexivity. Qed.

Example split_two :
  PyStr.lines (String "a" (String PyStr.newline (String PyStr.newline "b"))) = ["a"; ""; "b"].
Proof. reflexivity. Qed.

Example strip_ex : PyStr.strip "  bot: rebuild   arch:intel  " = "bot: rebuild   arch:intel".
Proof. reflexivity. Qed.

Example words_ex : PyStr.words " rebuild   arch:intel " = ["rebuild"; "arch:intel"].
Proof. reflexivity. Qed.

Example of_Z_ex : PyStr.of_Z 42 = "42" /\ PyStr.of_Z (-1) = "-1" /\ PyStr.of_Z 0 = "0".
Proof. repeat split. Qed.

Example matcher_examples :
  tools_commands.get_bot_command "  bot:   rebuild    arch:intel instance:AWS "
    = Some "bot: rebuild arch:intel instance:AWS"
  /\ tools_commands.get_bot_command "bot: cancel job:1234" = Some "bot: cancel job:1234"
  /\ tools_commands.get_bot_command "bot: frobnicate" = None
  /\ tools_commands.get_bot_command "bot: rebuild now" = None
  /\ tools_commands.get_bot_command "" = None
  /\ tools_commands.get_bot_command "- received bot command `bot: rebuild` from `x`" = None.
Proof. repeat split. Qed.

Lemma append_assoc (a b c : string) : (a ++ b) ++ c = a ++ (b ++ c).
Proof. induction a as [|x a IH]; simpl; [reflexivity | now rewrite IH]. Qed.

Lemma append_nil_r (a : string) : a ++ "" = a.
Proof. induction a as [|x a IH]; simpl; [reflexivity | now rewrite IH]. Qed.

Lemma slice_from_splits (n : nat) (s : string) :
  n <= String.length s ->
  exists p, s = p ++ PyStr.slice_from n s /\ String.length p = n.
Proof.
  revert s. induction n as [|n IH]; intros s Hn.
  - exists "". split; reflexivity.
  - destruct s as [|c r]; simpl in Hn; [lia|].
    destruct (IH r) as [p [Hp Hl]]; [lia|].
    exists (String c p). simpl. split; [now rewrite <- Hp | now rewrite Hl].
Qed.

(** ** CommandMatcher *)

Lemma get_bot_command_needs_prefix (s : string) :
  String.prefix tools_commands.prefix_token (PyStr.strip s) = false ->
  tools_commands.get_bot_command s = None.
Proof.
  intros H. unfold tools_commands.get_bot_command. now rewrite H.
Qed.

(** C8. The matcher is a function of the line alone; a line whose
    stripped form does not begin with the prefix token yields nothing, a
    prefix in the middle of a line does not count, and
    [bot: rebuild arch:intel] yields a command containing [rebuild] and
    [arch:intel]. *)
Theorem get_bot_command_anchored :
  (forall s,
      String.prefix tools_commands.prefix_token (PyStr.strip s) = false ->
      tools_commands.get_bot_command s = None)
  /\ tools_commands.get_bot_command "text bot: rebuild" = None
  /\ exists c,
      tools_commands.get_bot_command "bot: rebuild arch:intel" = Some c
      /\ PyStr.contains "rebuild" c = true
      /\ PyStr.contains "arch:intel" c = true.
Proof.
  split; [exact get_bot_command_needs_prefix|].
  split; [reflexivity|].
  exists "bot: rebuild arch:intel". repeat split.
Qed.

Lemma get_bot_command_anchored_witness :
  String.prefix tools_commands.prefix_token (PyStr.strip "  say bot: cancel") = false
  /\ tools_commands.get_bot_command "  say bot: cancel" = None.
Proof.
  split; [reflexivity|].
  apply (proj1 get_bot_command_anchored). reflexivity.
Defined.

(** ** CommentDiffer *)

Example diff_created :
  forall w rb,
    rb_action rb = "created" -> rb_comment_body rb = "hello" ->
    fst (EESSIBotSoftwareLayer.determine_diff rb w) = Ok ("hello", Some "hello").
Proof.
  intros w rb Ha Hb. unfold EESSIBotSoftwareLayer.determine_diff.
  rewrite Ha, Hb. reflexivity.
Qed.

(** C2. The computed diff is the whole new body for [created]; for
    [edited] it is the part of the new body from index [len(old_body)] on
    when the old body is strictly shorter, and the empty string when the
    new body is as long as or shorter than the old one. *)
Theorem determine_diff_cases (rb : RequestBody) (w : World) :
  let new_body := rb_comment_body rb in
  (rb_action rb = "created" ->
   fst (EESSIBotSoftwareLayer.determine_diff rb w) = Ok (new_body, Some new_body))
  /\ (forall old_body,
         rb_action rb = "edited" ->
         rb_changes_body_from rb = Some old_body ->
         String.length old_body < String.length new_body ->
         exists d p,
           fst (EESSIBotSoftwareLayer.determine_diff rb w) = Ok (d, Some new_body)
           /\ d = PyStr.slice_from (String.length old_body) new_body
           /\ new_body = p ++ d
           /\ String.length p = String.length old_body)
  /\ (forall old_body,
         rb_action rb = "edited" ->
         rb_changes_body_from rb = Some old_body ->
         String.length new_body <= String.length old_body ->
         fst (EESSIBotSoftwareLayer.determine_diff rb w) = Ok ("", Some new_body)).
Proof.
  intros new_body. unfold EESSIBotSoftwareLayer.determine_diff. repeat split.
  - intros Ha. rewrite Ha. reflexivity.
  - intros old_body Ha Hc Hlt. rewrite Ha, Hc.
    destruct (slice_from_splits (String.length old_body) new_body) as [p [Hp Hl]]; [lia|].
    exists (PyStr.slice_from (String.length old_body) new_body), p.
    repeat split; try assumption.
    cbn -[PyStr.slice_from String.length Nat.ltb append].
    unfold bind, key, ret, EESSIBotSoftwareLayer.self_log, log.
    fold new_body.
    now rewrite (proj2 (Nat.ltb_lt _ _) Hlt).
  - intros old_body Ha Hc Hle. rewrite Ha, Hc.
    cbn -[PyStr.slice_from String.length Nat.ltb append].
    unfold bind, key, ret, EESSIBotSoftwareLayer.self_log, log.
    fold new_body.
    now rewrite (proj2 (Nat.ltb_ge _ _) Hle).
Qed.

Lemma determine_diff_cases_witness :
  let w := Samples.calm in
  let body e := ei_raw_request_body e in
  fst (EESSIBotSoftwareLayer.determine_diff
         (body (Samples.comment_event "created" "maintainer" "hello" None)) w)
    = Ok ("hello", Some "hello")
  /\ (exists d p,
        fst (EESSIBotSoftwareLayer.determine_diff
               (body (Samples.comment_event "edited" "maintainer" "abcd" (Some "ab"))) w)
          = Ok (d, Some "abcd")
        /\ d = "cd" /\ "abcd" = p ++ d /\ String.length p = 2)
  /\ fst (EESSIBotSoftwareLayer.determine_diff
            (body (Samples.comment_event "edited" "maintainer" "ab" (Some "abcd"))) w)
       = Ok ("", Some "ab").
Proof.
  intros w body. split; [|split].
  - apply (proj1 (determine_diff_cases
                    (body (Samples.comment_event "created" "maintainer" "hello" None)) w)).
    reflexivity.
  - apply (proj1 (proj2 (determine_diff_cases
                    (body (Samples.comment_event "edited" "maintainer" "abcd" (Some "ab"))) w))
             "ab"); [reflexivity | reflexivity | simpl; lia].
  - apply (proj2 (proj2 (determine_diff_cases
                    (body (Samples.comment_event "edited" "maintainer" "ab" (Some "abcd"))) w))
             "abcd"); [reflexivity | reflexivity | simpl; lia].
Defined.

(** ** Worlds and the log sink *)

Lemma add_log_as_logs (w : World) (msg : string) : add_log w msg = add_logs w [msg].
Proof. reflexivity. Qed.

Lemma add_logs_nil (w : World) : add_logs w [] = w.
Proof. destruct w. unfold add_logs. simpl. now rewrite app_nil_r. Qed.

Lemma add_logs_add_logs (w : World) (a b : list string) :
  add_logs (add_logs w a) b = add_logs w (a ++ b).
Proof. unfold add_logs. simpl. now rewrite app_assoc. Qed.

Lemma logs_only_ret {A} (a : A) : logs_only (ret a) (Ok a).
Proof. exists []. intros w. unfold ret. now rewrite add_logs_nil. Qed.

Lemma logs_only_raise {A} (e : exn) : logs_only (@raise A e) (Raised e).
Proof. exists []. intros w. unfold raise. now rewrite add_logs_nil. Qed.

Lemma logs_only_log (msg : string) : logs_only (log msg) (Ok tt).
Proof. exists [msg]. reflexivity. Qed.

Lemma logs_only_self_log (fn msg : string) :
  logs_only (EESSIBotSoftwareLayer.self_log fn msg) (Ok tt).
Proof. apply logs_only_log. Qed.

Lemma logs_only_bind {A B} (m : M A) (k : A -> M B) (a : A) (r : result B) :
  logs_only m (Ok a) -> logs_only (k a) r -> logs_only (bind m k) r.
Proof.
  intros [l1 H1] [l2 H2]. exists (l1 ++ l2)%list. intros w.
  unfold bind. now rewrite H1, H2, add_logs_add_logs.
Qed.

Lemma logs_only_bind_raised {A B} (m : M A) (k : A -> M B) (e : exn) :
  logs_only m (Raised e) -> logs_only (bind m k) (Raised e).
Proof.
  intros [l1 H1]. exists l1. intros w. unfold bind. now rewrite H1.
Qed.

Lemma logs_only_frame {A} (m : M A) (r : result A) (w : World) :
  logs_only m r ->
  fst (m w) = r
  /\ store (snd (m w)) = store w
  /\ fetch_calls (snd (m w)) = fetch_calls w
  /\ edit_calls (snd (m w)) = edit_calls w
  /\ tasks (snd (m w)) = tasks w
  /\ exists l, logs (snd (m w)) = (logs w ++ l)%list.
Proof.
  intros [l H]. rewrite H. simpl. repeat split. now exists l.
Qed.

Lemma bind_ret_l {A B} (a : A) (k : A -> M B) : bind (ret a) k = k a.
Proof. reflexivity. Qed.

Ltac logs_only_steps :=
  repeat first
    [ apply logs_only_ret
    | apply logs_only_raise
    | apply logs_only_self_log
    | apply logs_only_log
    | eapply logs_only_bind ].

(** ** The stages of [handle_issue_comment_event] *)

Lemma determine_diff_logs_only (rb : RequestBody) (w0 : World) :
  logs_only (EESSIBotSoftwareLayer.determine_diff rb)
            (fst (EESSIBotSoftwareLayer.determine_diff rb w0)).
Proof.
  unfold EESSIBotSoftwareLayer.determine_diff.
  destruct (rb_action rb =? "created").
  - cbn. logs_only_steps.
  - destruct (rb_action rb =? "edited"); [|cbn; logs_only_steps].
    destruct (rb_changes_body_from rb) as [old|].
    + unfold key. rewrite !bind_ret_l.
      destruct (Nat.ltb (String.length old) (String.length (rb_comment_body rb)));
        cbn -[String.length PyStr.slice_from append]; logs_only_steps.
    + cbn. apply logs_only_bind_raised. logs_only_steps.
Qed.

Lemma search_commands_logs_only (m : string -> option string) (sender : string)
  (ls : list string) :
  forall acc,
    logs_only (EESSIBotSoftwareLayer.search_commands m sender ls acc)
              (Ok (acc ++ concat_all (map (segment sender) (commands_in m ls)))).
Proof.
  induction ls as [|line rest IH]; intros acc.
  - simpl. rewrite append_nil_r. apply logs_only_ret.
  - cbn [EESSIBotSoftwareLayer.search_commands commands_in flat_map].
    fold (commands_in m rest).
    destruct (m line) as [[|c r]|].
    + logs_only_steps. apply IH.
    + eapply logs_only_bind; [apply logs_only_self_log|].
      eapply logs_only_bind; [apply logs_only_self_log|].
      cbn [app map concat_all fold_right].
      fold (concat_all (map (segment sender) (commands_in m rest))).
      replace (acc ++ segment sender (String c r)
                   ++ concat_all (map (segment sender) (commands_in m rest)))
        with ((((acc ++ (nl ++ "- received bot command "))
                  ++ ("`" ++ String c r ++ "`")) ++ (" from `" ++ sender ++ "`"))
               ++ concat_all (map (segment sender) (commands_in m rest))).
      * apply IH.
      * unfold segment. now rewrite !append_assoc.
    + logs_only_steps. apply IH.
Qed.

Lemma search_commands_annotation (m : string -> option string)
  (sender comment_diff : string) :
  logs_only (EESSIBotSoftwareLayer.search_commands m sender (PyStr.lines comment_diff) "")
            (Ok (annotation m sender comment_diff)).
Proof. apply (search_commands_logs_only m sender (PyStr.lines comment_diff) ""). Qed.

(** Up to log messages, an event from a sender that passes line 92 with a
    non-empty update reaches the guard of line 138. *)
Lemma handler_reaches_guard (check : string -> bool) (m : string -> option string)
  (ei : EventInfo) (w : World) (d : string) (cn : option string) :
  let rb := ei_raw_request_body ei in
  check (rb_sender_login rb) = false ->
  fst (EESSIBotSoftwareLayer.determine_diff rb w) = Ok (d, cn) ->
  annotation m (rb_sender_login rb) d <> "" ->
  exists l,
    EESSIBotSoftwareLayer.handle_issue_comment_event check m ei w
    = EESSIBotSoftwareLayer.update_pr_comment m rb cn
        (annotation m (rb_sender_login rb) d) (add_logs w l).
Proof.
  intros rb Hc Hd Hu.
  destruct (determine_diff_logs_only rb w) as [l1 H1]. rewrite Hd in H1.
  destruct (search_commands_annotation m (rb_sender_login rb) d) as [l2 H2].
  unfold EESSIBotSoftwareLayer.handle_issue_comment_event. fold rb.
  rewrite Hc. unfold bind at 1.
  unfold EESSIBotSoftwareLayer.self_log at 1. unfold log at 1.
  unfold bind at 1. rewrite H1.
  unfold bind at 1. rewrite H2.
  unfold bind at 1.
  unfold EESSIBotSoftwareLayer.self_log at 1. unfold log at 1.
  rewrite (proj2 (String.eqb_neq _ _) Hu).
  rewrite !add_log_as_logs, !add_logs_add_logs.
  eexists. reflexivity.
Qed.

(** Up to log messages, an event with an empty update ends at line 136. *)
Lemma handler_empty_update (check : string -> bool) (m : string -> option string)
  (ei : EventInfo) (w : World) (d : string) (cn : option string) :
  let rb := ei_raw_request_body ei in
  fst (EESSIBotSoftwareLayer.determine_diff rb w) = Ok (d, cn) ->
  annotation m (rb_sender_login rb) d = "" ->
  logs_only (EESSIBotSoftwareLayer.handle_issue_comment_event check m ei) (Ok tt).
Proof.
  intros rb Hd Hu.
  unfold EESSIBotSoftwareLayer.handle_issue_comment_event. fold rb.
  eapply logs_only_bind; [apply logs_only_self_log|].
  destruct (check (rb_sender_login rb)); [apply logs_only_self_log|].
  eapply logs_only_bind.
  { rewrite <- Hd. apply determine_diff_logs_only. }
  cbn beta iota.
  eapply logs_only_bind; [apply search_commands_annotation|].
  rewrite Hu. cbn. logs_only_steps.
Qed.

Lemma handler_rejects (check : string -> bool) (m : string -> option string)
  (ei : EventInfo) (w : World) :
  let sender := rb_sender_login (ei_raw_request_body ei) in
  check sender = true ->
  exists first_line,
    EESSIBotSoftwareLayer.handle_issue_comment_event check m ei w
    = (Ok tt,
       add_logs w
         [first_line;
          "[handle_issue_comment_event]: account `" ++ sender
            ++ "` has no permission to send commands to bot"]).
Proof.
  intros sender Hc.
  unfold EESSIBotSoftwareLayer.handle_issue_comment_event. fold sender.
  rewrite Hc. unfold bind, EESSIBotSoftwareLayer.self_log, log.
  rewrite !add_log_as_logs, add_logs_add_logs.
  eexists. reflexivity.
Qed.

Lemma segment_not_empty (sender c : string) : segment sender c <> "".
Proof. unfold segment. simpl. discriminate. Qed.

Lemma commands_found (m : string -> option string) (ls : list string) :
  PyStr.any_map m ls = true -> commands_in m ls <> [].
Proof.
  unfold PyStr.any_map, commands_in.
  induction ls as [|l r IH]; simpl; [discriminate|].
  destruct (m l) as [[|c x]|]; simpl; try exact IH. discriminate.
Qed.

Lemma search_commands_result (m : string -> option string) (sender d u : string)
  (w : World) :
  fst (EESSIBotSoftwareLayer.search_commands m sender (PyStr.lines d) "" w) = Ok u ->
  u = annotation m sender d.
Proof.
  destruct (search_commands_annotation m sender d) as [l H]. rewrite H. simpl.
  now intros [= <-].
Qed.

Lemma annotation_not_empty (m : string -> option string) (sender d : string) :
  commands_in m (PyStr.lines d) <> [] -> annotation m sender d <> "".
Proof.
  unfold annotation. destruct (commands_in m (PyStr.lines d)) as [|c cs]; [congruence|].
  intros _. simpl. discriminate.
Qed.

(** ** Self-command guard *)

(** C1. When the diff of an event yields at least one command and some
    line of the composed annotation is itself matched by
    [get_bot_command], the handler returns normally without fetching or
    editing the comment: the world changes in its log only. *)
Theorem self_command_guard_blocks_write
  (check : string -> bool) (m : string -> option string)
  (ei : EventInfo) (w : World) (d : string) (cn : option string) (u : string) :
  let rb := ei_raw_request_body ei in
  let sender := rb_sender_login rb in
  let run := EESSIBotSoftwareLayer.handle_issue_comment_event check m ei w in
  fst (EESSIBotSoftwareLayer.determine_diff rb w) = Ok (d, cn) ->
  PyStr.any_map m (PyStr.lines d) = true ->
  fst (EESSIBotSoftwareLayer.search_commands m sender (PyStr.lines d) "" w) = Ok u ->
  PyStr.any_map m (PyStr.lines u) = true ->
  fst run = Ok tt
  /\ edit_calls (snd run) = edit_calls w
  /\ fetch_calls (snd run) = fetch_calls w
  /\ store (snd run) = store w
  /\ tasks (snd run) = tasks w
  /\ exists l,
      logs (snd run) = (logs w ++ l)%list
      /\ (check sender = false ->
          In ("[handle_issue_comment_event]: update '" ++ u
              ++ "' is considered to contain bot command ... not updating PR comment") l).
Proof.
  intros rb sender run Hd Hcmd Hu Hany. subst run.
  apply search_commands_result in Hu. subst u.
  destruct (check sender) eqn:Hc.
  - destruct (handler_rejects check m ei w Hc) as [l0 H]. rewrite H. simpl.
    repeat split. eexists. split; [reflexivity | discriminate].
  - destruct (handler_reaches_guard check m ei w d cn Hc Hd
                (annotation_not_empty m sender d (commands_found m _ Hcmd))) as [l H].
    rewrite H. unfold EESSIBotSoftwareLayer.update_pr_comment.
    fold rb sender. rewrite Hany.
    unfold bind, EESSIBotSoftwareLayer.self_log, log. simpl.
    repeat split. rewrite <- !app_assoc. eexists. split; [reflexivity|].
    intros _. apply in_or_app. right. simpl. left. reflexivity.
Qed.

Lemma self_command_guard_blocks_write_witness :
  let ei := Samples.comment_event "created" "contributor" "bot: rebuild" None in
  let run := EESSIBotSoftwareLayer.handle_issue_comment_event
               (fun _ => false) Samples.loose_matcher ei Samples.calm in
  fst run = Ok tt /\ edit_calls (snd run) = 0 /\ fetch_calls (snd run) = 0
  /\ store (snd run) = store Samples.calm.
Proof.
  intros ei run.
  destruct (self_command_guard_blocks_write
              (fun _ => false) Samples.loose_matcher ei Samples.calm
              "bot: rebuild" (Some "bot: rebuild")
              (nl ++ "- received bot command `bot: rebuild` from `contributor`"))
    as (Hr & He & Hf & Hs & _).
  - reflexivity.
  - reflexivity.
  - reflexivity.
  - reflexivity.
  - exact (conj Hr (conj He (conj Hf Hs))).
Defined.

(** With the anchored matcher a comment of two commands is acknowledged
    twice: no line of the annotation is a command and the comment is
    edited. *)
Example two_commands_are_acknowledged :
  let body := "bot: rebuild" ++ nl ++ "bot: rebuild" in
  let run := EESSIBotSoftwareLayer.handle_issue_comment_event
               (fun _ => false) tools_commands.get_bot_command
               (Samples.comment_event "created" "contributor" body None) Samples.calm in
  fst run = Ok tt
  /\ edit_calls (snd run) = 1
  /\ store (snd run) 1001%Z
     = body ++ nl ++ "- received bot command `bot: rebuild` from `contributor`"
            ++ nl ++ "- received bot command `bot: rebuild` from `contributor`".
Proof. vm_compute. repeat split. Qed.

(** ** Sender authorization *)

(** C3, as the code has it: the handler stops at line 94 exactly when
    [check_command_permission] answers true for the sender. With the
    SenderAuthorizer [is_authorized] in that place, a sender that is not
    authorized gets its command acknowledged on the comment, and the
    authorized sender is turned away. *)
Theorem permission_check_outcome :
  let handle sender :=
    EESSIBotSoftwareLayer.handle_issue_comment_event
      Samples.is_authorized tools_commands.get_bot_command
      (Samples.comment_event "created" sender "bot: rebuild" None) Samples.calm in
  Samples.is_authorized "eessi-bot" = false
  /\ fst (handle "eessi-bot") = Ok tt
  /\ fetch_calls (snd (handle "eessi-bot")) = 1
  /\ edit_calls (snd (handle "eessi-bot")) = 1
  /\ store (snd (handle "eessi-bot")) 1001%Z
     = "bot: rebuild" ++ nl ++ "- received bot command `bot: rebuild` from `eessi-bot`"
  /\ Samples.is_authorized "maintainer" = true
  /\ fst (handle "maintainer") = Ok tt
  /\ fetch_calls (snd (handle "maintainer")) = 0
  /\ edit_calls (snd (handle "maintainer")) = 0
  /\ store (snd (handle "maintainer")) 1001%Z = "__ORG-comment__"
  /\ last (logs (snd (handle "maintainer"))) ""
     = "[handle_issue_comment_event]: account `maintainer` has no permission to send commands to bot".
Proof. vm_compute. repeat split. Qed.

(** ** Events that are neither [created] nor [edited] *)

(** C10. For an action other than [created] and [edited] the diff is
    empty, the composed update is empty, and the handler returns without
    fetching or editing the comment. *)
Theorem other_actions_leave_comment_alone
  (check : string -> bool) (m : string -> option string)
  (ei : EventInfo) (w : World) :
  let rb := ei_raw_request_body ei in
  let sender := rb_sender_login rb in
  let run := EESSIBotSoftwareLayer.handle_issue_comment_event check m ei w in
  rb_action rb <> "created" ->
  rb_action rb <> "edited" ->
  PyStr.truthy (m "") = false ->
  fst (EESSIBotSoftwareLayer.determine_diff rb w) = Ok ("", None)
  /\ fst (EESSIBotSoftwareLayer.search_commands m sender (PyStr.lines "") "" w) = Ok ""
  /\ fst run = Ok tt
  /\ edit_calls (snd run) = edit_calls w
  /\ fetch_calls (snd run) = fetch_calls w
  /\ store (snd run) = store w
  /\ tasks (snd run) = tasks w
  /\ (check sender = false ->
      exists l,
        logs (snd run) = (logs w ++ l)%list
        /\ last l "" = "[handle_issue_comment_event]: update to comment is empty").
Proof.
  intros rb sender run Hc He Hm.
  assert (Hd : forall w0, EESSIBotSoftwareLayer.determine_diff rb w0 = (Ok ("", None), w0)).
  { intros w0. unfold EESSIBotSoftwareLayer.determine_diff.
    rewrite (proj2 (String.eqb_neq _ _) Hc), (proj2 (String.eqb_neq _ _) He).
    reflexivity. }
  assert (Ha : annotation m sender "" = "").
  { unfold annotation. simpl. destruct (m "") as [[|c r]|]; try reflexivity.
    simpl in Hm. discriminate. }
  split; [now rewrite Hd|].
  split.
  { destruct (search_commands_annotation m sender "") as [l H]. rewrite H, Ha.
    reflexivity. }
  assert (Hrun : logs_only (EESSIBotSoftwareLayer.handle_issue_comment_event check m ei)
                           (Ok tt)).
  { apply (handler_empty_update check m ei w "" None); [now rewrite Hd | exact Ha]. }
  destruct (logs_only_frame _ _ w Hrun) as (Hr & Hs & Hf & Hedit & Ht & _).
  fold run in Hr, Hs, Hf, Hedit, Ht.
  repeat (split; [assumption|]).
  intros Hk. subst run.
  unfold EESSIBotSoftwareLayer.handle_issue_comment_event. fold rb sender.
  rewrite Hk.
  unfold bind at 1. unfold EESSIBotSoftwareLayer.self_log at 1. unfold log at 1.
  unfold bind at 1. rewrite Hd.
  unfold PyStr.lines. simpl PyStr.split.
  unfold EESSIBotSoftwareLayer.search_commands.
  destruct (m "") as [[|c r]|]; try (simpl in Hm; discriminate);
    unfold bind, EESSIBotSoftwareLayer.self_log, log, ret; simpl;
    rewrite <- !app_assoc; eexists; (split; [reflexivity|]); reflexivity.
Qed.

Lemma other_actions_leave_comment_alone_witness :
  let ei := Samples.comment_event "deleted" "eessi-bot" "bot: rebuild" None in
  let run := EESSIBotSoftwareLayer.handle_issue_comment_event
               Samples.is_authorized tools_commands.get_bot_command ei Samples.calm in
  fst run = Ok tt /\ edit_calls (snd run) = 0 /\ fetch_calls (snd run) = 0
  /\ store (snd run) = store Samples.calm.
Proof.
  intros ei run.
  destruct (other_actions_leave_comment_alone
              Samples.is_authorized tools_commands.get_bot_command ei Samples.calm)
    as (_ & _ & Hr & He & Hf & Hs & _).
  - simpl. discriminate.
  - simpl. discriminate.
  - reflexivity.
  - exact (conj Hr (conj He (conj Hf Hs))).
Defined.

(** ** Pull request events *)

(** C7. A [pull_request] event with action [labeled] reaches the label
    handler. For the label [bot:build] the build jobs are submitted
    exactly when [check_build_permission] passes; for [bot:deploy] the
    built artefacts are deployed; for any other label nothing is called,
    the missing handler is logged, and the handler returns normally. *)
Theorem labeled_event_dispatch
  (check_build : PullRequest -> EventInfo -> bool)
  (app_name : string) (targets : list (string * list string))
  (ei : EventInfo) (pr : PullRequest) (w : World) (label : string) :
  let run := EESSIBotSoftwareLayer.handle_pull_request_event
               check_build app_name targets ei pr w in
  let called := skipn (List.length (tasks w)) (tasks (snd run)) in
  ei_action ei = "labeled" ->
  rb_label_name (ei_raw_request_body ei) = Some label ->
  fst run = Ok tt
  /\ store (snd run) = store w
  /\ tasks (snd run) = (tasks w ++ called)%list
  /\ (label = "bot:build" ->
      (In (SubmitBuildJobs (pr_number pr)) called <-> check_build pr ei = true)
      /\ called = (if check_build pr ei then [SubmitBuildJobs (pr_number pr)] else []))
  /\ (label = "bot:deploy" -> called = [DeployBuiltArtefacts (pr_number pr)])
  /\ (label <> "bot:build" -> label <> "bot:deploy" ->
      called = []
      /\ last (logs (snd run)) ""
         = "[handle_pull_request_labeled_event]: "
           ++ "handle_pull_request_labeled_event: no handler for label '" ++ label ++ "'").
Proof.
  intros run called Ha Hl. subst called run.
  unfold EESSIBotSoftwareLayer.handle_pull_request_event,
    EESSIBotSoftwareLayer.handle_pull_request_labeled_event.
  rewrite Ha, Hl. simpl String.eqb. unfold key. rewrite !bind_ret_l.
  destruct (String.eqb_spec label "bot:build") as [Eb|Nb].
  - destruct (check_build pr ei);
      unfold bind, EESSIBotSoftwareLayer.self_log, log, call_task, ret; simpl;
      rewrite ?skipn_app, ?skipn_all, ?Nat.sub_diag; simpl;
      repeat split; try congruence; try tauto; try (now rewrite app_nil_r);
      try (intros; subst; discriminate).
  - destruct (String.eqb_spec label "bot:deploy") as [Ed|Nd];
      unfold bind, EESSIBotSoftwareLayer.self_log, log, call_task, ret; simpl;
      rewrite ?skipn_app, ?skipn_all, ?Nat.sub_diag; simpl;
      repeat split; try congruence; try tauto; try (now rewrite app_nil_r).
    rewrite last_last. reflexivity.
Qed.

Lemma labeled_event_dispatch_witness :
  let run label ok :=
    EESSIBotSoftwareLayer.handle_pull_request_event
      (fun _ _ => ok) "eessi-bot" [] (Samples.labeled_event label) Samples.pr7 Samples.calm in
  tasks (snd (run "bot:build" true)) = [SubmitBuildJobs 7]
  /\ tasks (snd (run "bot:build" false)) = []
  /\ tasks (snd (run "bot:deploy" false)) = [DeployBuiltArtefacts 7]
  /\ tasks (snd (run "bot:unknown" true)) = []
  /\ fst (run "bot:unknown" true) = Ok tt.
Proof.
  intros run.
  pose proof (labeled_event_dispatch (fun _ _ => true) "eessi-bot" []
                (Samples.labeled_event "bot:build") Samples.pr7 Samples.calm "bot:build"
                eq_refl eq_refl) as (_ & _ & T1 & B1 & _).
  pose proof (labeled_event_dispatch (fun _ _ => false) "eessi-bot" []
                (Samples.labeled_event "bot:build") Samples.pr7 Samples.calm "bot:build"
                eq_refl eq_refl) as (_ & _ & T2 & B2 & _).
  pose proof (labeled_event_dispatch (fun _ _ => false) "eessi-bot" []
                (Samples.labeled_event "bot:deploy") Samples.pr7 Samples.calm "bot:deploy"
                eq_refl eq_refl) as (_ & _ & T3 & _ & D3 & _).
  pose proof (labeled_event_dispatch (fun _ _ => true) "eessi-bot" []
                (Samples.labeled_event "bot:unknown") Samples.pr7 Samples.calm "bot:unknown"
                eq_refl eq_refl) as (R4 & _ & T4 & _ & _ & U4).
  destruct (B1 eq_refl) as [_ C1]. destruct (B2 eq_refl) as [_ C2].
  specialize (D3 eq_refl).
  destruct U4 as [C4 _]; [discriminate | discriminate |].
  rewrite C1 in T1. rewrite C2 in T2. rewrite D3 in T3. rewrite C4 in T4.
  repeat split; assumption.
Defined.

(** ** Lines of the annotation *)

Lemma mem_append (c : ascii) (a b : string) :
  PyStr.mem c (a ++ b) = PyStr.mem c a || PyStr.mem c b.
Proof.
  induction a as [|x a IH]; simpl; [reflexivity|].
  rewrite IH. now rewrite orb_assoc.
Qed.

Lemma split_not_nil (sep : ascii) (s : string) : PyStr.split sep s <> [].
Proof.
  destruct s as [|c r]; simpl; [discriminate|].
  destruct (Ascii.eqb c sep); [discriminate|].
  destruct (PyStr.split sep r); discriminate.
Qed.

Lemma split_append (sep : ascii) (a r : string) :
  PyStr.mem sep a = false ->
  PyStr.split sep (a ++ r)
  = match PyStr.split sep r with
    | h :: t => (a ++ h) :: t
    | [] => [a]
    end.
Proof.
  induction a as [|x a IH]; intros Ha.
  - simpl. destruct (PyStr.split sep r) eqn:E; [|reflexivity].
    now destruct (split_not_nil sep r).
  - simpl in Ha. apply orb_false_iff in Ha. destruct Ha as [Hx Ha].
    simpl. rewrite Hx, (IH Ha).
    destruct (PyStr.split sep r) eqn:E; [|reflexivity].
    now destruct (split_not_nil sep r).
Qed.

Lemma segment_is_line (sender c : string) :
  segment sender c = nl ++ segment_line sender c.
Proof. reflexivity. Qed.

Lemma segment_line_one_line (sender c : string) :
  PyStr.mem PyStr.newline sender = false ->
  PyStr.mem PyStr.newline c = false ->
  PyStr.mem PyStr.newline (segment_line sender c) = false.
Proof.
  intros Hs Hc. unfold segment_line.
  rewrite !mem_append, Hs, Hc. reflexivity.
Qed.

Lemma lines_of_segments (sender : string) (cmds : list string) :
  PyStr.mem PyStr.newline sender = false ->
  Forall (fun c => PyStr.mem PyStr.newline c = false) cmds ->
  PyStr.lines (concat_all (map (segment sender) cmds))
  = "" :: map (segment_line sender) cmds.
Proof.
  intros Hs Hc. induction Hc as [|c cs Hc Hcs IH]; [reflexivity|].
  cbn [map concat_all fold_right].
  fold (concat_all (map (segment sender) cs)).
  rewrite segment_is_line. unfold nl. cbn [append].
  unfold PyStr.lines in *. cbn [PyStr.split]. rewrite Ascii.eqb_refl.
  rewrite (split_append _ _ _ (segment_line_one_line sender c Hs Hc)), IH.
  now rewrite append_nil_r.
Qed.

Lemma commands_in_from_matcher (m : string -> option string) (ls : list string) (c : string) :
  In c (commands_in m ls) -> exists line, In line ls /\ m line = Some c.
Proof.
  unfold commands_in. rewrite in_flat_map. intros [line [Hin Hc]].
  exists line. split; [assumption|].
  destruct (m line) as [[|x r]|]; simpl in Hc; try contradiction.
  destruct Hc as [<-|[]]. reflexivity.
Qed.

Lemma strip_keeps_head (c : ascii) (r : string) :
  PyStr.is_space c = false ->
  exists r', PyStr.strip (String c r) = String c r'.
Proof.
  intros Hc. unfold PyStr.strip. simpl. rewrite Hc. simpl.
  destruct (PyStr.rstrip r); rewrite ?Hc; eexists; reflexivity.
Qed.

Lemma segment_line_not_prefixed (sender c : string) :
  String.prefix tools_commands.prefix_token (PyStr.strip (segment_line sender c)) = false
  /\ String.prefix tools_commands.prefix_token (segment_line sender c) = false
  /\ String.prefix "- received bot command " (segment_line sender c) = true.
Proof.
  split; [|split].
  - unfold segment_line.
    change ("- received bot command " ++ ("`" ++ c ++ "`") ++ " from `" ++ sender ++ "`")
      with (String "-"%char (" received bot command " ++ ("`" ++ c ++ "`")
                               ++ " from `" ++ sender ++ "`")).
    destruct (strip_keeps_head "-"%char
                (" received bot command " ++ ("`" ++ c ++ "`") ++ " from `" ++ sender ++ "`")
                eq_refl) as [r'' Hr'']. rewrite Hr''. reflexivity.
  - reflexivity.
  - reflexivity.
Qed.

Lemma annotation_lines (m : string -> option string) (sender d : string) :
  one_line_commands m ->
  PyStr.mem PyStr.newline sender = false ->
  PyStr.lines (annotation m sender d)
  = "" :: map (segment_line sender) (commands_in m (PyStr.lines d)).
Proof.
  intros Hm Hs. unfold annotation. apply lines_of_segments; [assumption|].
  apply Forall_forall. intros c Hc.
  destruct (commands_in_from_matcher m _ c Hc) as [line [_ Hl]].
  exact (Hm line c Hl).
Qed.

(** The write of lines 143-150, from the guard on. *)
Lemma update_pr_comment_writes (m : string -> option string) (rb : RequestBody)
  (cn : option string) (u : string) (w : World) :
  PyStr.any_map m (PyStr.lines u) = false ->
  let run := EESSIBotSoftwareLayer.update_pr_comment m rb cn u w in
  fetch_calls (snd run) = S (fetch_calls w)
  /\ (forall new,
         fetch_plan w (fetch_calls w) = FetchComment ->
         edit_plan w (edit_calls w) = None ->
         cn = Some new ->
         fst run = Ok tt
         /\ edit_calls (snd run) = S (edit_calls w)
         /\ store (snd run) (rb_comment_id rb) = new ++ u).
Proof.
  intros Hg run. subst run. unfold EESSIBotSoftwareLayer.update_pr_comment.
  rewrite Hg. cbn [negb]. unfold bind, get_issue_comment.
  destruct (fetch_plan w (fetch_calls w)) eqn:Hf.
  - split; [reflexivity | discriminate].
  - split; [reflexivity | discriminate].
  - destruct cn as [new|]; [|split; [reflexivity | discriminate]].
    unfold edit. cbn [edit_plan edit_calls count_fetch].
    destruct (edit_plan w (edit_calls w)) eqn:He.
    + split; [reflexivity | discriminate].
    + split; [reflexivity|].
      intros new' _ _ E. injection E as <-. cbn. rewrite Z.eqb_refl. repeat split.
Qed.

(** ** The annotation is not a command *)

(** C9, with the sender login and the matched commands free of line
    breaks. The composed update is the concatenation of one segment per
    command found; its lines are an empty first line followed by lines
    that begin with [- received bot command ]; none begins with the
    prefix token; an anchored matcher finds no command in it, so an event
    in which a command was found takes the branch that fetches the
    comment and writes the new body followed by the update. *)
Theorem annotation_is_not_a_command
  (check : string -> bool) (m : string -> option string)
  (ei : EventInfo) (w : World) (d : string) (cn : option string) :
  let rb := ei_raw_request_body ei in
  let sender := rb_sender_login rb in
  let u := annotation m sender d in
  let run := EESSIBotSoftwareLayer.handle_issue_comment_event check m ei w in
  anchored m ->
  one_line_commands m ->
  PyStr.mem PyStr.newline sender = false ->
  u = concat_all (map (segment sender) (commands_in m (PyStr.lines d)))
  /\ (forall w0,
        fst (EESSIBotSoftwareLayer.search_commands m sender (PyStr.lines d) "" w0) = Ok u)
  /\ Forall (fun l => l = "" \/ String.prefix "- received bot command " l = true)
            (PyStr.lines u)
  /\ Forall (fun l => String.prefix tools_commands.prefix_token l = false) (PyStr.lines u)
  /\ PyStr.any_map m (PyStr.lines u) = false
  /\ (check sender = false ->
      fst (EESSIBotSoftwareLayer.determine_diff rb w) = Ok (d, cn) ->
      PyStr.any_map m (PyStr.lines d) = true ->
      fetch_calls (snd run) = S (fetch_calls w)
      /\ (forall new,
             fetch_plan w (fetch_calls w) = FetchComment ->
             edit_plan w (edit_calls w) = None ->
             cn = Some new ->
             fst run = Ok tt
             /\ edit_calls (snd run) = S (edit_calls w)
             /\ store (snd run) (rb_comment_id rb) = new ++ u)).
Proof.
  intros rb sender u run Hanch Hone Hs.
  pose proof (annotation_lines m sender d Hone Hs) as Hl. fold u in Hl.
  assert (Hguard : PyStr.any_map m (PyStr.lines u) = false).
  { rewrite Hl. unfold PyStr.any_map. simpl.
    rewrite (Hanch "" eq_refl). simpl.
    apply not_true_is_false. intros Hex.
    apply existsb_exists in Hex. destruct Hex as [l [Hin Ht]].
    apply in_map_iff in Hin. destruct Hin as [c [<- _]].
    rewrite (Hanch _ (proj1 (segment_line_not_prefixed sender c))) in Ht.
    discriminate. }
  split; [reflexivity|].
  split.
  { intros w0.
    destruct (search_commands_annotation m sender d) as [l H]. now rewrite H. }
  split.
  { rewrite Hl. constructor; [now left|].
    apply Forall_forall. intros l Hin.
    apply in_map_iff in Hin. destruct Hin as [c [<- _]].
    right. apply (segment_line_not_prefixed sender c). }
  split.
  { rewrite Hl. constructor; [reflexivity|].
    apply Forall_forall. intros l Hin.
    apply in_map_iff in Hin. destruct Hin as [c [<- _]].
    apply (segment_line_not_prefixed sender c). }
  split; [exact Hguard|].
  intros Hc Hd Hcmd. subst run.
  destruct (handler_reaches_guard check m ei w d cn Hc Hd
              (annotation_not_empty m sender d (commands_found m _ Hcmd))) as [l H].
  rewrite H. fold rb sender u.
  exact (update_pr_comment_writes m rb cn u (add_logs w l) Hguard).
Qed.

Lemma get_bot_command_is_anchored : anchored tools_commands.get_bot_command.
Proof.
  intros line H. now rewrite (get_bot_command_needs_prefix line H).
Qed.

Lemma newline_is_space (c : ascii) :
  PyStr.is_space c = false -> Ascii.eqb c PyStr.newline = false.
Proof.
  intros H. destruct (Ascii.eqb_spec c PyStr.newline) as [->|]; [|reflexivity].
  discriminate.
Qed.

Lemma words_from_one_line (s : string) :
  forall cur,
    PyStr.mem PyStr.newline cur = false ->
    Forall (fun w => PyStr.mem PyStr.newline w = false) (PyStr.words_from cur s).
Proof.
  induction s as [|c r IH]; intros cur Hcur; simpl.
  - destruct cur; constructor; [assumption | constructor].
  - destruct (PyStr.is_space c) eqn:Hc.
    + destruct cur; [now apply IH|].
      constructor; [assumption | now apply IH].
    + apply IH. rewrite mem_append, Hcur. simpl.
      now rewrite (newline_is_space c Hc).
Qed.

Lemma join_one_line (sep : string) (ws : list string) :
  PyStr.mem PyStr.newline sep = false ->
  Forall (fun w => PyStr.mem PyStr.newline w = false) ws ->
  PyStr.mem PyStr.newline (PyStr.join sep ws) = false.
Proof.
  intros Hsep Hws. induction Hws as [|x r Hx Hr IH]; [reflexivity|].
  simpl. destruct r as [|y r']; [assumption|].
  now rewrite !mem_append, Hx, Hsep, IH.
Qed.

Lemma get_bot_command_one_line : one_line_commands tools_commands.get_bot_command.
Proof.
  intros line c. unfold tools_commands.get_bot_command.
  destruct (String.prefix _ _); [|discriminate].
  destruct (PyStr.words _) as [|kw mods] eqn:Hw; [discriminate|].
  destruct (_ && _); [|discriminate].
  intros E. injection E as <-.
  pose proof (words_from_one_line
                (PyStr.slice_from (String.length tools_commands.prefix_token)
                   (PyStr.strip line)) "" eq_refl) as Hall.
  fold (PyStr.words (PyStr.slice_from (String.length tools_commands.prefix_token)
                       (PyStr.strip line))) in Hall.
  rewrite Hw in Hall.
  change (PyStr.mem PyStr.newline
            (PyStr.join " " (tools_commands.prefix_token :: kw :: mods)) = false).
  apply join_one_line; [reflexivity|].
  constructor; [reflexivity | exact Hall].
Qed.

Lemma annotation_is_not_a_command_witness :
  let ei := Samples.comment_event "edited" "contributor"
              ("please" ++ nl ++ "bot: rebuild arch:intel") (Some "please") in
  let run := EESSIBotSoftwareLayer.handle_issue_comment_event
               (fun _ => false) tools_commands.get_bot_command ei Samples.calm in
  PyStr.any_map tools_commands.get_bot_command
    (PyStr.lines (annotation tools_commands.get_bot_command "contributor"
                    (nl ++ "bot: rebuild arch:intel"))) = false
  /\ fetch_calls (snd run) = 1
  /\ fst run = Ok tt
  /\ edit_calls (snd run) = 1
  /\ store (snd run) 1001%Z
     = ("please" ++ nl ++ "bot: rebuild arch:intel")
         ++ annotation tools_commands.get_bot_command "contributor"
              (nl ++ "bot: rebuild arch:intel").
Proof.
  intros ei run.
  destruct (annotation_is_not_a_command
              (fun _ => false) tools_commands.get_bot_command ei Samples.calm
              (nl ++ "bot: rebuild arch:intel")
              (Some ("please" ++ nl ++ "bot: rebuild arch:intel"))
              get_bot_command_is_anchored get_bot_command_one_line eq_refl)
    as (_ & _ & _ & _ & Hg & Hrun).
  destruct Hrun as [Hf Hw].
  - reflexivity.
  - reflexivity.
  - reflexivity.
  - destruct (Hw ("please" ++ nl ++ "bot: rebuild arch:intel") eq_refl eq_refl eq_refl)
      as (Hr & He & Hs).
    exact (conj Hg (conj Hf (conj Hr (conj He Hs)))).
Defined.

(** C9 as stated fails: a sender login that spans several lines puts a
    line of its own into the annotation. With the login
    [Samples.three_line_login] that line is [bot: rebuild]: it neither is
    empty nor begins with [- received bot command ], it begins with the
    prefix token, the anchored matcher takes it for a command, and the
    guard skips the update although a command was found. *)
Lemma annotation_line_from_login_is_a_command :
  let m := tools_commands.get_bot_command in
  let sender := Samples.three_line_login in
  let ei := Samples.comment_event "created" sender "bot: rebuild" None in
  let u := annotation m sender "bot: rebuild" in
  let run := EESSIBotSoftwareLayer.handle_issue_comment_event (fun _ => false) m ei Samples.calm in
  anchored m
  /\ PyStr.any_map m (PyStr.lines "bot: rebuild") = true
  /\ fst (EESSIBotSoftwareLayer.search_commands m sender (PyStr.lines "bot: rebuild") ""
            Samples.calm) = Ok u
  /\ ~ Forall (fun l => l = "" \/ String.prefix "- received bot command " l = true)
         (PyStr.lines u)
  /\ ~ Forall (fun l => String.prefix tools_commands.prefix_token l = false) (PyStr.lines u)
  /\ PyStr.any_map m (PyStr.lines u) = true
  /\ fst run = Ok tt
  /\ fetch_calls (snd run) = 0
  /\ edit_calls (snd run) = 0.
Proof.
  intros m sender ei u run.
  assert (Hin : In "bot: rebuild" (PyStr.lines u)).
  { vm_compute. right. right. left. reflexivity. }
  split; [exact get_bot_command_is_anchored|].
  split; [reflexivity|].
  split; [reflexivity|].
  split.
  { intros H. rewrite Forall_forall in H. destruct (H _ Hin); discriminate. }
  split.
  { intros H. rewrite Forall_forall in H. specialize (H _ Hin). discriminate. }
  repeat split.
Qed.

(** ** CommentUpdater *)

Lemma count_fetch_add_fetches (w : World) (k : nat) :
  add_fetches (count_fetch w) k = add_fetches w (S k).
Proof. unfold add_fetches, count_fetch. simpl. f_equal. lia. Qed.

Lemma count_fetch_as_add (w : World) : count_fetch w = add_fetches w 1.
Proof. unfold add_fetches, count_fetch. f_equal. lia. Qed.

Lemma add_fetches_add_fetches (w : World) (a b : nat) :
  add_fetches (add_fetches w a) b = add_fetches w (a + b).
Proof. unfold add_fetches. simpl. f_equal. lia. Qed.

Lemma fetches_fail_next (w : World) (n : nat) (raised : nat -> exn) :
  fetches_fail w (S n) raised -> fetches_fail (count_fetch w) n raised.
Proof.
  intros H i Hi. simpl. replace (S (fetch_calls w + i)) with (fetch_calls w + S i) by lia.
  apply H. lia.
Qed.

Lemma fetches_fail_head (w : World) (n : nat) (raised : nat -> exn) :
  fetches_fail w (S n) raised ->
  fetch_plan w (fetch_calls w) = FetchRaises (raised (fetch_calls w)).
Proof. intros H. specialize (H 0). rewrite Nat.add_0_r in H. apply H. lia. Qed.

(** The fetch phase when every attempt fails: all attempts are made and
    the failure of the last one is propagated. *)
Lemma fetch_phase_exhausted (id : Z) (raised : nat -> exn) (n : nat) :
  forall w,
    fetches_fail w (S n) raised ->
    tools_pr_comments.fetch_with_retries id (S n) w
    = (Raised (raised (fetch_calls w + n)), add_fetches w (S n)).
Proof.
  induction n as [|n IH]; intros w H.
  - cbn [tools_pr_comments.fetch_with_retries]. unfold try_except, get_issue_comment.
    rewrite (fetches_fail_head w 0 raised H). unfold raise.
    now rewrite Nat.add_0_r, count_fetch_as_add.
  - change (tools_pr_comments.fetch_with_retries id (S (S n)) w)
      with (try_except (get_issue_comment id)
              (fun _ => tools_pr_comments.fetch_with_retries id (S n)) w).
    unfold try_except at 1. unfold get_issue_comment at 1.
    rewrite (fetches_fail_head w (S n) raised H).
    rewrite (IH (count_fetch w) (fetches_fail_next w (S n) raised H)).
    rewrite count_fetch_add_fetches. simpl fetch_calls.
    now replace (S (fetch_calls w) + n) with (fetch_calls w + S n) by lia.
Qed.

(** The fetch phase when [f] attempts fail and the next one answers:
    [f + 1] attempts are made. *)
Lemma fetch_phase_answers (id : Z) (raised : nat -> exn) (f : nat) :
  forall n w,
    f < n ->
    fetches_fail w f raised ->
    (forall e, fetch_plan w (fetch_calls w + f) <> FetchRaises e) ->
    tools_pr_comments.fetch_with_retries id n w
    = (Ok (match fetch_plan w (fetch_calls w + f) with
           | FetchComment => Some {| ic_id := id; ic_body := store w id |}
           | _ => None
           end),
       add_fetches w (S f)).
Proof.
  induction f as [|f IH]; intros n w Hn Hfail Hans.
  - destruct n as [|n]; [lia|].
    cbn [tools_pr_comments.fetch_with_retries]. unfold try_except, get_issue_comment.
    rewrite Nat.add_0_r in *. rewrite count_fetch_as_add.
    destruct (fetch_plan w (fetch_calls w)) eqn:E; try reflexivity.
    now destruct (Hans e).
  - destruct n as [|[|n]]; [lia | lia |].
    change (tools_pr_comments.fetch_with_retries id (S (S n)) w)
      with (try_except (get_issue_comment id)
              (fun _ => tools_pr_comments.fetch_with_retries id (S n)) w).
    unfold try_except at 1. unfold get_issue_comment at 1.
    rewrite (fetches_fail_head w f raised Hfail).
    assert (Hplan : fetch_plan (count_fetch w) (fetch_calls (count_fetch w) + f)
                    = fetch_plan w (fetch_calls w + S f)).
    { simpl. f_equal. lia. }
    rewrite (IH (S n) (count_fetch w)); try lia.
    + rewrite Hplan, count_fetch_add_fetches. reflexivity.
    + apply fetches_fail_next. exact Hfail.
    + intros e. rewrite Hplan. apply Hans.
Qed.

Lemma fetch_phase_first_answer (id : Z) (n : nat) (w : World) :
  fetch_plan w (fetch_calls w) = FetchComment ->
  tools_pr_comments.fetch_with_retries id (S n) w
  = (Ok (Some {| ic_id := id; ic_body := store w id |}), count_fetch w).
Proof.
  intros H. cbn [tools_pr_comments.fetch_with_retries].
  unfold try_except, get_issue_comment. now rewrite H.
Qed.

Lemma write_attempt_unfold (id : Z) (sfx : py_value) (mr k : nat) :
  tools_pr_comments.write_with_retries id sfx mr (S k)
  = (issue_comment <- tools_pr_comments.fetch_with_retries id mr ;;
     match issue_comment with
     | None =>
         log ("no comment with id " ++ PyStr.of_Z id
              ++ ", skipping update '" ++ tools_pr_comments.str sfx ++ "'")
     | Some issue_comment =>
         try_except
           (body <- tools_pr_comments.concat_body (ic_body issue_comment) sfx ;;
            edit issue_comment body)
           (fun e => match k with
                     | O => raise e
                     | S _ => tools_pr_comments.write_with_retries id sfx mr k
                     end)
     end).
Proof. reflexivity. Qed.

Lemma fetches_answer_head (w : World) (n : nat) :
  fetches_answer w (S n) -> fetch_plan w (fetch_calls w) = FetchComment.
Proof. intros H. specialize (H 0). rewrite Nat.add_0_r in H. apply H. lia. Qed.

Lemma edits_fail_head (w : World) (n : nat) (raised : nat -> exn) :
  edits_fail w (S n) raised ->
  edit_plan w (edit_calls w) = Some (raised (edit_calls w)).
Proof. intros H. specialize (H 0). rewrite Nat.add_0_r in H. apply H. lia. Qed.

Lemma fetches_answer_next (w : World) (n : nat) :
  fetches_answer w (S n) -> fetches_answer (count_fetch w) n.
Proof.
  intros H i Hi. simpl. replace (S (fetch_calls w + i)) with (fetch_calls w + S i) by lia.
  apply H. lia.
Qed.

(** The write phase when every edit raises: each attempt fetches once
    and edits once, and the failure of the last edit is propagated. *)
Lemma write_phase_exhausted (id : Z) (s : string) (mr : nat) (raised : nat -> exn)
  (a : nat) :
  forall w,
    fetches_answer w (S a) ->
    edits_fail w (S a) raised ->
    tools_pr_comments.write_with_retries id (PyString s) (S mr) (S a) w
    = (Raised (raised (edit_calls w + a)), add_edits (add_fetches w (S a)) (S a)).
Proof.
  induction a as [|a IH]; intros w Hf He; rewrite write_attempt_unfold;
    unfold bind at 1;
    rewrite (fetch_phase_first_answer id mr w (fetches_answer_head w _ Hf));
    unfold try_except at 1; unfold bind at 1;
    unfold tools_pr_comments.concat_body, ret; unfold edit at 1;
    cbn [edit_plan edit_calls count_fetch];
    rewrite (edits_fail_head w _ raised He).
  - unfold raise. rewrite Nat.add_0_r. f_equal.
    unfold add_edits, add_fetches, count_edit, count_fetch. simpl. f_equal; lia.
  - rewrite IH.
    + simpl edit_calls. f_equal; [f_equal; f_equal; lia|].
      unfold add_edits, add_fetches, count_edit, count_fetch. simpl. f_equal; lia.
    + intros i Hi. simpl.
      replace (S (fetch_calls w + i)) with (fetch_calls w + S i) by lia. apply Hf. lia.
    + intros i Hi. simpl.
      replace (S (edit_calls w + i)) with (edit_calls w + S i) by lia. apply He. lia.
Qed.

(** The write phase with a suffix that is not a string: every attempt
    fetches once and fails before any edit is sent. *)
Lemma write_phase_type_error (id : Z) (k : Z) (mr : nat) (a : nat) :
  forall w,
    fetches_answer w (S a) ->
    tools_pr_comments.write_with_retries id (PyInt k) (S mr) (S a) w
    = (Raised (TypeError "can only concatenate str (not 'int') to str"),
       add_fetches w (S a)).
Proof.
  induction a as [|a IH]; intros w Hf; rewrite write_attempt_unfold;
    unfold bind at 1;
    rewrite (fetch_phase_first_answer id mr w (fetches_answer_head w _ Hf));
    unfold try_except at 1; unfold bind at 1;
    unfold tools_pr_comments.concat_body, raise.
  - now rewrite count_fetch_as_add.
  - rewrite (IH (count_fetch w) (fetches_answer_next w _ Hf)).
    now rewrite count_fetch_add_fetches.
Qed.

(** C4. With [max_retries = 3]: when every fetch raises, exactly three
    fetches are made, the failure of the third is propagated, and nothing
    is edited or logged; when the comment is fetched but every edit
    raises, the failure of the third edit is propagated; when the suffix
    is not a string, the type error is propagated after three attempts.
    In each case the comment bodies are unchanged. *)
Theorem update_comment_exhausts_retries (id : Z) (w : World) (raised : nat -> exn) :
  (forall sfx,
      fetches_fail w 3 raised ->
      let run := tools_pr_comments.update_comment id sfx 3 w in
      fst run = Raised (raised (fetch_calls w + 2))
      /\ fetch_calls (snd run) = fetch_calls w + 3
      /\ edit_calls (snd run) = edit_calls w
      /\ store (snd run) = store w
      /\ logs (snd run) = logs w)
  /\ (forall s,
         fetches_answer w 3 ->
         edits_fail w 3 raised ->
         let run := tools_pr_comments.update_comment id (PyString s) 3 w in
         fst run = Raised (raised (edit_calls w + 2))
         /\ fetch_calls (snd run) = fetch_calls w + 3
         /\ edit_calls (snd run) = edit_calls w + 3
         /\ store (snd run) = store w
         /\ logs (snd run) = logs w)
  /\ (forall k,
         fetches_answer w 3 ->
         let run := tools_pr_comments.update_comment id (PyInt k) 3 w in
         fst run = Raised (TypeError "can only concatenate str (not 'int') to str")
         /\ fetch_calls (snd run) = fetch_calls w + 3
         /\ edit_calls (snd run) = edit_calls w
         /\ store (snd run) = store w
         /\ logs (snd run) = logs w).
Proof.
  split; [|split].
  - intros sfx Hf run. subst run. unfold tools_pr_comments.update_comment.
    rewrite write_attempt_unfold. unfold bind.
    rewrite (fetch_phase_exhausted id raised 2 w Hf). repeat split.
  - intros s Hf He run. subst run. unfold tools_pr_comments.update_comment.
    rewrite (write_phase_exhausted id s 2 raised 2 w Hf He). repeat split.
  - intros k Hf run. subst run. unfold tools_pr_comments.update_comment.
    rewrite (write_phase_type_error id k 2 2 w Hf). repeat split.
Qed.

Lemma update_comment_exhausts_retries_witness :
  (let run := tools_pr_comments.update_comment (-1)
                (PyString "raise GetIssueCommentException") 3 Samples.fetch_always_raises in
   fst run = Raised Samples.GetIssueCommentException
   /\ fetch_calls (snd run) = 3
   /\ store (snd run) = store Samples.fetch_always_raises)
  /\ (let run := tools_pr_comments.update_comment 0
                   (PyString "raise EditIssueCommentException") 3 Samples.edit_always_raises in
      fst run = Raised Samples.EditIssueCommentException
      /\ fetch_calls (snd run) = 3
      /\ store (snd run) 0%Z = "__ORG-comment__")
  /\ (let run := tools_pr_comments.update_comment 0 (PyInt 42) 3 Samples.calm in
      fst run = Raised (TypeError "can only concatenate str (not 'int') to str")
      /\ fetch_calls (snd run) = 3
      /\ store (snd run) 0%Z = "__ORG-comment__").
Proof.
  split; [|split].
  - destruct (proj1 (update_comment_exhausts_retries (-1) Samples.fetch_always_raises
                       (fun _ => Samples.GetIssueCommentException))
                (PyString "raise GetIssueCommentException"))
      as (Hr & Hf & _ & Hs & _).
    + intros i Hi. reflexivity.
    + exact (conj Hr (conj Hf Hs)).
  - destruct (proj1 (proj2 (update_comment_exhausts_retries 0 Samples.edit_always_raises
                       (fun _ => Samples.EditIssueCommentException)))
                "raise EditIssueCommentException")
      as (Hr & Hf & _ & Hs & _).
    + intros i Hi. reflexivity.
    + intros i Hi. reflexivity.
    + split; [exact Hr | split; [exact Hf | now rewrite Hs]].
  - destruct (proj2 (proj2 (update_comment_exhausts_retries 0 Samples.calm
                       (fun _ => Samples.GetIssueCommentException))) 42%Z)
      as (Hr & Hf & _ & Hs & _).
    + intros i Hi. reflexivity.
    + split; [exact Hr | split; [exact Hf | now rewrite Hs]].
Defined.

Lemma add_fetches_0 (w : World) : add_fetches w 0 = w.
Proof. destruct w. unfold add_fetches. simpl. now rewrite Nat.add_0_r. Qed.

(** Whatever the remote does, the fetch phase changes the count of
    fetches only, and a comment it returns carries the stored body. *)
Lemma fetch_phase_frame (id : Z) (n : nat) :
  forall w,
    exists k,
      snd (tools_pr_comments.fetch_with_retries id n w) = add_fetches w k
      /\ forall c,
          fst (tools_pr_comments.fetch_with_retries id n w) = Ok (Some c) ->
          c = {| ic_id := id; ic_body := store w id |}.
Proof.
  induction n as [|n IH]; intros w.
  - exists 0. simpl. rewrite add_fetches_0. split; [reflexivity | discriminate].
  - cbn [tools_pr_comments.fetch_with_retries]. unfold try_except, get_issue_comment.
    destruct (fetch_plan w (fetch_calls w)).
    + destruct n as [|n].
      * exists 1. rewrite count_fetch_as_add. split; [reflexivity | discriminate].
      * destruct (IH (count_fetch w)) as [k [Hw Hc]].
        exists (S k). rewrite Hw, count_fetch_add_fetches. split; [reflexivity|].
        exact Hc.
    + exists 1. rewrite count_fetch_as_add. split; [reflexivity | discriminate].
    + exists 1. rewrite count_fetch_as_add. split; [reflexivity|].
      simpl. intros c [= <-]. reflexivity.
Qed.

Lemma write_attempt_step (id : Z) (s : string) (mr a : nat) (w : World) :
  tools_pr_comments.write_with_retries id (PyString s) mr (S a) w
  = match tools_pr_comments.fetch_with_retries id mr w with
    | (Ok (Some c), w1) =>
        match edit_plan w1 (edit_calls w1) with
        | Some e =>
            match a with
            | O => (Raised e, count_edit w1)
            | S _ => tools_pr_comments.write_with_retries id (PyString s) mr a (count_edit w1)
            end
        | None => (Ok tt, write_store (count_edit w1) (ic_id c) (ic_body c ++ s))
        end
    | (Ok None, w1) =>
        (Ok tt, add_log w1 ("no comment with id " ++ PyStr.of_Z id
                            ++ ", skipping update '" ++ s ++ "'"))
    | (Raised e, w1) => (Raised e, w1)
    end.
Proof.
  rewrite write_attempt_unfold. unfold bind at 1.
  destruct (tools_pr_comments.fetch_with_retries id mr w) as [[[c|]|e] w1];
    try reflexivity.
  unfold try_except, bind, tools_pr_comments.concat_body, ret, edit.
  destruct (edit_plan w1 (edit_calls w1)); [|reflexivity].
  destruct a; reflexivity.
Qed.

(** Whatever the remote does, a call of the write phase either leaves
    every body as it was, no edit having been accepted, or returns
    normally after an accepted edit that appended the suffix to the body
    of the target comment. *)
Lemma write_phase_cases (id : Z) (s : string) (mr a : nat) :
  forall w,
    let run := tools_pr_comments.write_with_retries id (PyString s) mr a w in
    fetch_plan (snd run) = fetch_plan w
    /\ edit_plan (snd run) = edit_plan w
    /\ edit_calls w <= edit_calls (snd run)
    /\ ((store (snd run) = store w /\ ~ wrote w (snd run))
        \/ (fst run = Ok tt
            /\ wrote w (snd run)
            /\ store (snd run) id = store w id ++ s
            /\ forall j, j <> id -> store (snd run) j = store w j)).
Proof.
  induction a as [|a IH]; intros w run; subst run.
  - simpl. repeat split; try lia. left. split; [reflexivity|].
    intros [k [Hk _]]. lia.
  - rewrite write_attempt_step.
    destruct (fetch_phase_frame id mr w) as [k [Hw Hc]].
    destruct (tools_pr_comments.fetch_with_retries id mr w) as [r1 w1].
    simpl in Hw, Hc. subst w1.
    destruct r1 as [[c|]|e].
    + rewrite (Hc c eq_refl).
      cbn [edit_plan edit_calls add_fetches ic_id ic_body].
      destruct (edit_plan w (edit_calls w)) as [e|] eqn:He.
      * destruct a as [|a].
        -- cbn [fst snd]. repeat split; try (simpl; lia).
           left. split; [reflexivity|].
           intros [j [Hj Hp]]. simpl in Hj.
           assert (j = edit_calls w) by lia. subst j. congruence.
        -- specialize (IH (count_edit (add_fetches w k))).
           cbn zeta in IH. destruct IH as (Hfp & Hep & Hle & Hcases).
           cbn [fetch_plan edit_plan edit_calls store count_edit add_fetches]
             in Hfp, Hep, Hle, Hcases.
           repeat split; try assumption; try lia.
           destruct Hcases as [[Hs Hn]|(Hr & Hwr & Hs & Hothers)].
           ++ left. split; [exact Hs|].
              intros [j [Hj Hp]].
              destruct (Nat.eq_dec j (edit_calls w)) as [->|Hne]; [congruence|].
              apply Hn. exists j. cbn [edit_plan edit_calls count_edit add_fetches].
              split; [lia | exact Hp].
           ++ right. repeat split; try assumption.
              destruct Hwr as [j [Hj Hp]]. exists j.
              cbn [edit_plan edit_calls count_edit add_fetches] in Hj, Hp.
              split; [lia | exact Hp].
      * cbn [fst snd]. repeat split; try (simpl; lia).
        right. repeat split.
        -- exists (edit_calls w). simpl. split; [lia | exact He].
        -- simpl. now rewrite Z.eqb_refl.
        -- intros j Hj. simpl. now rewrite (proj2 (Z.eqb_neq j id) Hj).
    + cbn [fst snd]. repeat split; try (simpl; lia).
      left. split; [reflexivity|]. intros [j [Hj _]]. simpl in Hj. lia.
    + cbn [fst snd]. repeat split; try (simpl; lia).
      left. split; [reflexivity|]. intros [j [Hj _]]. simpl in Hj. lia.
Qed.

(** C5. Whenever a call of [update_comment] had an edit accepted, it
    returned normally (without a value) and the body of the target
    comment is the fetched body followed by the suffix, every other
    comment being as before. Such a call exists whenever the fetch
    answers with the comment within the budget and the edit is accepted:
    after [f] failed fetches it makes [f + 1] fetch calls and one edit. *)
Theorem update_comment_appends_suffix (id : Z) (s : string) (n : nat) (w : World) :
  let run := tools_pr_comments.update_comment id (PyString s) n w in
  (wrote w (snd run) ->
   fst run = Ok tt
   /\ store (snd run) id = store w id ++ s
   /\ forall j, j <> id -> store (snd run) j = store w j)
  /\ (forall f raised,
         f < n ->
         fetches_fail w f raised ->
         fetch_plan w (fetch_calls w + f) = FetchComment ->
         edit_plan w (edit_calls w) = None ->
         fst run = Ok tt
         /\ wrote w (snd run)
         /\ store (snd run) id = store w id ++ s
         /\ fetch_calls (snd run) = fetch_calls w + f + 1
         /\ edit_calls (snd run) = edit_calls w + 1
         /\ logs (snd run) = logs w).
Proof.
  intros run. subst run. unfold tools_pr_comments.update_comment. split.
  - intros Hw.
    destruct (write_phase_cases id s n n w) as (_ & _ & _ & [[_ Hn]|(Hr & _ & Hs & Hj)]).
    + contradiction.
    + repeat split; assumption.
  - intros f raised Hf Hfail Hplan He.
    destruct n as [|n]; [lia|].
    rewrite write_attempt_step.
    rewrite (fetch_phase_answers id raised f (S n) w Hf Hfail)
      by (intros e; rewrite Hplan; discriminate).
    rewrite Hplan. cbn [edit_plan edit_calls add_fetches ic_id ic_body].
    rewrite He. cbn [fst snd].
    repeat split.
    + exists (edit_calls w). simpl. split; [lia | exact He].
    + simpl. now rewrite Z.eqb_refl.
    + simpl. lia.
    + simpl. lia.
Qed.

Lemma update_comment_appends_suffix_witness :
  let run := tools_pr_comments.update_comment 0 (PyString "body-0") 3
               Samples.fetch_raises_once in
  fst run = Ok tt
  /\ store (snd run) 0%Z = "__ORG-comment__body-0"
  /\ fetch_calls (snd run) = 2
  /\ edit_calls (snd run) = 1.
Proof.
  intros run.
  destruct (proj2 (update_comment_appends_suffix 0 "body-0" 3 Samples.fetch_raises_once)
              1 (fun _ => Samples.GetIssueCommentException))
    as (Hr & Hw & Hs & Hf & He & _).
  - lia.
  - intros i Hi. assert (i = 0) by lia. subst i. reflexivity.
  - reflexivity.
  - reflexivity.
  - destruct (proj1 (update_comment_appends_suffix 0 "body-0" 3 Samples.fetch_raises_once) Hw)
      as (_ & Hs' & _).
    exact (conj Hr (conj Hs' (conj Hf He))).
Defined.

(** C6. When the fetch phase ends with the answer that there is no such
    comment, [update_comment] logs the diagnostic, sends no edit, leaves
    every body as it was and returns normally. *)
Theorem update_comment_skips_missing_comment
  (id : Z) (sfx : py_value) (n f : nat) (w : World) (raised : nat -> exn) :
  let run := tools_pr_comments.update_comment id sfx n w in
  f < n ->
  fetches_fail w f raised ->
  fetch_plan w (fetch_calls w + f) = FetchNone ->
  fst run = Ok tt
  /\ logs (snd run)
     = (logs w ++ [("no comment with id " ++ PyStr.of_Z id ++ ", skipping update '"
                      ++ tools_pr_comments.str sfx ++ "'")%string])%list
  /\ edit_calls (snd run) = edit_calls w
  /\ store (snd run) = store w
  /\ fetch_calls (snd run) = fetch_calls w + f + 1.
Proof.
  intros run Hf Hfail Hplan. subst run. unfold tools_pr_comments.update_comment.
  destruct n as [|n]; [lia|].
  rewrite write_attempt_unfold. unfold bind.
  rewrite (fetch_phase_answers id raised f (S n) w Hf Hfail)
    by (intros e; rewrite Hplan; discriminate).
  rewrite Hplan. unfold log. cbn [fst snd]. repeat split. simpl. lia.
Qed.

Lemma update_comment_skips_missing_comment_witness :
  let run := tools_pr_comments.update_comment 0 (PyString "body-0") 3 Samples.no_comment in
  fst run = Ok tt
  /\ logs (snd run) = ["no comment with id 0, skipping update 'body-0'"]
  /\ edit_calls (snd run) = 0
  /\ store (snd run) = store Samples.no_comment.
Proof.
  intros run.
  destruct (update_comment_skips_missing_comment 0 (PyString "body-0") 3 0
              Samples.no_comment (fun _ => Samples.GetIssueCommentException))
    as (Hr & Hl & He & Hs & _).
  - lia.
  - intros i Hi. lia.
  - reflexivity.
  - exact (conj Hr (conj Hl (conj He Hs))).
Defined.

(** * Further properties of the handlers *)

(** ** What is new in an edited comment *)

Lemma slice_from_append (a b : string) :
  PyStr.slice_from (String.length a) (a ++ b) = b.
Proof. induction a as [|c a IH]; [reflexivity | exact IH]. Qed.

Lemma length_append (a b : string) :
  String.length (a ++ b) = String.length a + String.length b.
Proof. induction a as [|c a IH]; simpl; [reflexivity | now rewrite IH]. Qed.

Lemma determine_diff_edited (rb : RequestBody) (w : World) (old : string) :
  rb_action rb = "edited" ->
  rb_changes_body_from rb = Some old ->
  fst (EESSIBotSoftwareLayer.determine_diff rb w)
  = Ok (if Nat.ltb (String.length old) (String.length (rb_comment_body rb))
        then PyStr.slice_from (String.length old) (rb_comment_body rb)
        else "",
        Some (rb_comment_body rb)).
Proof.
  intros Ha Hc. unfold EESSIBotSoftwareLayer.determine_diff.
  rewrite Ha, Hc. simpl String.eqb. unfold key. rewrite bind_ret_l.
  destruct (Nat.ltb (String.length old) (String.length (rb_comment_body rb)));
    reflexivity.
Qed.

(** X1. An edit that only appends text to the old body yields exactly
    the appended text as the diff (the empty string when nothing was
    appended). *)
Theorem appended_text_is_the_diff (rb : RequestBody) (w : World) (old added : string) :
  rb_action rb = "edited" ->
  rb_changes_body_from rb = Some old ->
  rb_comment_body rb = old ++ added ->
  fst (EESSIBotSoftwareLayer.determine_diff rb w) = Ok (added, Some (old ++ added)).
Proof.
  intros Ha Hc Hb. rewrite (determine_diff_edited rb w old Ha Hc), Hb.
  rewrite slice_from_append, length_append.
  destruct added as [|c r].
  - now rewrite Nat.add_0_r, Nat.ltb_irrefl.
  - rewrite (proj2 (Nat.ltb_lt _ _)); [reflexivity|]. simpl. lia.
Qed.

Lemma appended_text_is_the_diff_witness :
  fst (EESSIBotSoftwareLayer.determine_diff
         (ei_raw_request_body
            (Samples.comment_event "edited" "contributor"
               ("please" ++ nl ++ "bot: rebuild") (Some "please")))
         Samples.calm)
  = Ok (nl ++ "bot: rebuild", Some ("please" ++ nl ++ "bot: rebuild")).
Proof.
  apply (appended_text_is_the_diff _ Samples.calm "please" (nl ++ "bot: rebuild"));
    reflexivity.
Defined.

(** ** Events that lead to no remote call *)

Lemma no_commands_found (m : string -> option string) (ls : list string) :
  PyStr.any_map m ls = false -> commands_in m ls = [].
Proof.
  unfold PyStr.any_map, commands_in.
  induction ls as [|l r IH]; simpl; [reflexivity|].
  destruct (m l) as [[|c x]|]; simpl; try exact IH. discriminate.
Qed.

(** X2. When no line of the diff yields a command, the handler only
    logs: it returns normally and makes no fetch, no edit and no task
    call, whatever the action and whatever the permission check says. *)
Theorem no_command_no_remote_call
  (check : string -> bool) (m : string -> option string)
  (ei : EventInfo) (w : World) (d : string) (cn : option string) :
  let rb := ei_raw_request_body ei in
  let run := EESSIBotSoftwareLayer.handle_issue_comment_event check m ei w in
  fst (EESSIBotSoftwareLayer.determine_diff rb w) = Ok (d, cn) ->
  PyStr.any_map m (PyStr.lines d) = false ->
  fst run = Ok tt
  /\ fetch_calls (snd run) = fetch_calls w
  /\ edit_calls (snd run) = edit_calls w
  /\ store (snd run) = store w
  /\ tasks (snd run) = tasks w.
Proof.
  intros rb run Hd Hm.
  assert (Hrun : logs_only (EESSIBotSoftwareLayer.handle_issue_comment_event check m ei)
                           (Ok tt)).
  { apply (handler_empty_update check m ei w d cn Hd).
    unfold annotation. now rewrite (no_commands_found m _ Hm). }
  destruct (logs_only_frame _ _ w Hrun) as (Hr & Hs & Hf & He & Ht & _).
  fold run in Hr, Hs, Hf, He, Ht. repeat split; assumption.
Qed.

Lemma no_command_no_remote_call_witness :
  let ei := Samples.comment_event "created" "contributor" "thanks, looks good" None in
  let run := EESSIBotSoftwareLayer.handle_issue_comment_event
               (fun _ => false) tools_commands.get_bot_command ei Samples.calm in
  fst run = Ok tt /\ fetch_calls (snd run) = 0 /\ edit_calls (snd run) = 0.
Proof.
  intros ei run.
  destruct (no_command_no_remote_call (fun _ => false) tools_commands.get_bot_command
              ei Samples.calm "thanks, looks good" (Some "thanks, looks good"))
    as (Hr & Hf & He & _).
  - reflexivity.
  - reflexivity.
  - exact (conj Hr (conj Hf He)).
Defined.

(** X3. An [edited] event that carries no [changes] entry makes a
    sender that passes line 92 fail with [KeyError] at line 104, after
    the first log line and before any remote call. *)
Theorem edited_without_changes_raises
  (check : string -> bool) (m : string -> option string) (ei : EventInfo) (w : World) :
  let rb := ei_raw_request_body ei in
  let run := EESSIBotSoftwareLayer.handle_issue_comment_event check m ei w in
  check (rb_sender_login rb) = false ->
  rb_action rb = "edited" ->
  rb_changes_body_from rb = None ->
  fst run = Raised (KeyError "changes")
  /\ fetch_calls (snd run) = fetch_calls w
  /\ edit_calls (snd run) = edit_calls w
  /\ store (snd run) = store w
  /\ List.length (logs (snd run)) = S (List.length (logs w)).
Proof.
  intros rb run Hc Ha Hn. subst run.
  unfold EESSIBotSoftwareLayer.handle_issue_comment_event,
    EESSIBotSoftwareLayer.determine_diff.
  fold rb. rewrite Hc, Ha, Hn. simpl String.eqb.
  unfold bind, key, raise, EESSIBotSoftwareLayer.self_log, log. simpl.
  repeat split. rewrite length_app. simpl. lia.
Qed.

Lemma edited_without_changes_raises_witness :
  fst (EESSIBotSoftwareLayer.handle_issue_comment_event
         (fun _ => false) tools_commands.get_bot_command
         (Samples.comment_event "edited" "contributor" "bot: rebuild" None) Samples.calm)
  = Raised (KeyError "changes").
Proof.
  apply (edited_without_changes_raises (fun _ => false) tools_commands.get_bot_command
           (Samples.comment_event "edited" "contributor" "bot: rebuild" None) Samples.calm);
    reflexivity.
Defined.

(** ** The write of the acknowledgement *)

Lemma handler_reaches_guard_logged (check : string -> bool) (m : string -> option string)
  (ei : EventInfo) (w : World) (d : string) (cn : option string) :
  let rb := ei_raw_request_body ei in
  let u := annotation m (rb_sender_login rb) d in
  check (rb_sender_login rb) = false ->
  fst (EESSIBotSoftwareLayer.determine_diff rb w) = Ok (d, cn) ->
  u <> "" ->
  exists l,
    EESSIBotSoftwareLayer.handle_issue_comment_event check m ei w
    = EESSIBotSoftwareLayer.update_pr_comment m rb cn u
        (add_logs w (l ++ ["[handle_issue_comment_event]: comment update: '" ++ u ++ "'"])).
Proof.
  intros rb u Hc Hd Hu. subst u.
  destruct (determine_diff_logs_only rb w) as [l1 H1]. rewrite Hd in H1.
  destruct (search_commands_annotation m (rb_sender_login rb) d) as [l2 H2].
  unfold EESSIBotSoftwareLayer.handle_issue_comment_event. fold rb.
  rewrite Hc. unfold bind at 1.
  unfold EESSIBotSoftwareLayer.self_log at 1. unfold log at 1.
  unfold bind at 1. rewrite H1.
  unfold bind at 1. rewrite H2.
  unfold bind at 1.
  unfold EESSIBotSoftwareLayer.self_log at 1. unfold log at 1.
  rewrite (proj2 (String.eqb_neq _ _) Hu).
  rewrite !add_log_as_logs, !add_logs_add_logs, !app_assoc.
  eexists. reflexivity.
Qed.

(** X4. The write of lines 143-150 is attempted once. A failing fetch
    or a failing edit is propagated as it is, one fetch (and one edit)
    having been made and every comment body being as before; the final
    log line is then missing. When both succeed the comment holds the
    event's new body followed by the update, the other comments are
    untouched, and the handler logs that the event was handled. *)
Theorem acknowledgement_write_outcomes
  (check : string -> bool) (m : string -> option string)
  (ei : EventInfo) (w : World) (d new u : string) :
  let rb := ei_raw_request_body ei in
  let sender := rb_sender_login rb in
  let run := EESSIBotSoftwareLayer.handle_issue_comment_event check m ei w in
  let handled := "[handle_issue_comment_event]: issue_comment event handled!" in
  check sender = false ->
  fst (EESSIBotSoftwareLayer.determine_diff rb w) = Ok (d, Some new) ->
  PyStr.any_map m (PyStr.lines d) = true ->
  fst (EESSIBotSoftwareLayer.search_commands m sender (PyStr.lines d) "" w) = Ok u ->
  PyStr.any_map m (PyStr.lines u) = false ->
  fetch_calls (snd run) = S (fetch_calls w)
  /\ (forall e,
         fetch_plan w (fetch_calls w) = FetchRaises e ->
         fst run = Raised e
         /\ edit_calls (snd run) = edit_calls w
         /\ store (snd run) = store w
         /\ last (logs (snd run)) "" <> handled)
  /\ (forall e,
         fetch_plan w (fetch_calls w) = FetchComment ->
         edit_plan w (edit_calls w) = Some e ->
         fst run = Raised e
         /\ edit_calls (snd run) = S (edit_calls w)
         /\ store (snd run) = store w
         /\ last (logs (snd run)) "" <> handled)
  /\ (fetch_plan w (fetch_calls w) = FetchComment ->
      edit_plan w (edit_calls w) = None ->
      fst run = Ok tt
      /\ edit_calls (snd run) = S (edit_calls w)
      /\ store (snd run) (rb_comment_id rb) = new ++ u
      /\ (forall j, j <> rb_comment_id rb -> store (snd run) j = store w j)
      /\ last (logs (snd run)) "" = handled).
Proof.
  intros rb sender run handled Hc Hd Hcmd Hu Hg. subst run.
  apply search_commands_result in Hu. subst u.
  destruct (handler_reaches_guard_logged check m ei w d (Some new) Hc Hd
              (annotation_not_empty m sender d (commands_found m _ Hcmd))) as [l H].
  rewrite H. fold rb. fold sender.
  unfold EESSIBotSoftwareLayer.update_pr_comment. rewrite Hg. cbn [negb].
  unfold bind, get_issue_comment, edit, raise, EESSIBotSoftwareLayer.self_log, log.
  cbn -[append last Z.eqb].
  destruct (fetch_plan w (fetch_calls w)) as [e0| |] eqn:Hf; cbn -[append last Z.eqb].
  - split; [reflexivity|]. split; [|split; [discriminate | discriminate]].
    intros e [= <-]. repeat split.
    rewrite ?app_assoc, last_last. discriminate.
  - split; [reflexivity|]. split; [discriminate|]. split; discriminate.
  - destruct (edit_plan w (edit_calls w)) as [e0|] eqn:He; cbn -[append last Z.eqb].
    + split; [reflexivity|]. split; [discriminate|].
      split; [|discriminate].
      intros e _ [= <-]. repeat split.
      rewrite ?app_assoc, last_last. discriminate.
    + split; [reflexivity|]. split; [discriminate|].
      split; [discriminate|].
      intros _ _. rewrite Z.eqb_refl. repeat split.
      * intros j Hj. now rewrite (proj2 (Z.eqb_neq _ _) Hj).
      * now rewrite ?app_assoc, last_last.
Qed.

Lemma acknowledgement_write_outcomes_witness :
  let ei := Samples.comment_event "created" "contributor" "bot: rebuild" None in
  let handle := EESSIBotSoftwareLayer.handle_issue_comment_event
                  (fun _ => false) tools_commands.get_bot_command ei in
  (fst (handle Samples.edit_always_raises) = Raised Samples.EditIssueCommentException
   /\ store (snd (handle Samples.edit_always_raises)) = store Samples.edit_always_raises)
  /\ (fst (handle Samples.fetch_always_raises) = Raised Samples.GetIssueCommentException
      /\ edit_calls (snd (handle Samples.fetch_always_raises)) = 0)
  /\ (fst (handle Samples.calm) = Ok tt
      /\ store (snd (handle Samples.calm)) 1001%Z
         = "bot: rebuild" ++ nl ++ "- received bot command `bot: rebuild` from `contributor`").
Proof.
  intros ei handle.
  pose (u := nl ++ "- received bot command `bot: rebuild` from `contributor`").
  split; [|split].
  - destruct (acknowledgement_write_outcomes (fun _ => false) tools_commands.get_bot_command
                ei Samples.edit_always_raises "bot: rebuild" "bot: rebuild" u
                eq_refl eq_refl eq_refl eq_refl eq_refl) as (_ & _ & H & _).
    destruct (H Samples.EditIssueCommentException eq_refl eq_refl) as (Hr & _ & Hs & _).
    exact (conj Hr Hs).
  - destruct (acknowledgement_write_outcomes (fun _ => false) tools_commands.get_bot_command
                ei Samples.fetch_always_raises "bot: rebuild" "bot: rebuild" u
                eq_refl eq_refl eq_refl eq_refl eq_refl) as (_ & H & _).
    destruct (H Samples.GetIssueCommentException eq_refl) as (Hr & He & _).
    exact (conj Hr He).
  - destruct (acknowledgement_write_outcomes (fun _ => false) tools_commands.get_bot_command
                ei Samples.calm "bot: rebuild" "bot: rebuild" u
                eq_refl eq_refl eq_refl eq_refl eq_refl) as (_ & _ & _ & H).
    destruct (H eq_refl eq_refl) as (Hr & _ & Hs & _).
    exact (conj Hr Hs).
Defined.

(** ** Scanning a diff line by line *)

Lemma lines_append (a b : string) :
  PyStr.lines (a ++ nl ++ b) = (PyStr.lines a ++ PyStr.lines b)%list.
Proof.
  unfold PyStr.lines, nl. induction a as [|c a IH].
  - simpl. reflexivity.
  - cbn [append PyStr.split]. cbn [append] in IH.
    destruct (Ascii.eqb c PyStr.newline).
    + now rewrite IH.
    + rewrite IH.
      destruct (PyStr.split PyStr.newline a) as [|h t] eqn:E; [|reflexivity].
      now destruct (split_not_nil PyStr.newline a).
Qed.

Lemma commands_in_app (m : string -> option string) (xs ys : list string) :
  commands_in m (xs ++ ys) = (commands_in m xs ++ commands_in m ys)%list.
Proof. unfold commands_in. apply flat_map_app. Qed.

Lemma concat_all_app (xs ys : list string) :
  concat_all (xs ++ ys) = concat_all xs ++ concat_all ys.
Proof.
  unfold concat_all. induction xs as [|x xs IH]; simpl; [reflexivity|].
  now rewrite IH, append_assoc.
Qed.

(** X5. The update composed for two pieces of text joined by a line
    break is the update for the first piece followed by the update for
    the second: each line of a diff is judged on its own and the
    acknowledgements keep the order of the lines. *)
Theorem update_of_joined_diffs
  (m : string -> option string) (sender d1 d2 u1 u2 : string) (w : World) :
  fst (EESSIBotSoftwareLayer.search_commands m sender (PyStr.lines d1) "" w) = Ok u1 ->
  fst (EESSIBotSoftwareLayer.search_commands m sender (PyStr.lines d2) "" w) = Ok u2 ->
  fst (EESSIBotSoftwareLayer.search_commands m sender (PyStr.lines (d1 ++ nl ++ d2)) "" w)
  = Ok (u1 ++ u2).
Proof.
  intros H1 H2.
  apply search_commands_result in H1. apply search_commands_result in H2. subst u1 u2.
  destruct (search_commands_annotation m sender (d1 ++ nl ++ d2)) as [l H].
  rewrite H. cbn [fst]. f_equal.
  unfold annotation. now rewrite lines_append, commands_in_app, map_app, concat_all_app.
Qed.

Lemma update_of_joined_diffs_witness :
  fst (EESSIBotSoftwareLayer.search_commands tools_commands.get_bot_command "contributor"
         (PyStr.lines ("bot: rebuild" ++ nl ++ "bot: cancel job:42")) "" Samples.calm)
  = Ok ((nl ++ "- received bot command `bot: rebuild` from `contributor`")
          ++ (nl ++ "- received bot command `bot: cancel job:42` from `contributor`")).
Proof.
  apply (update_of_joined_diffs tools_commands.get_bot_command "contributor"
           "bot: rebuild" "bot: cancel job:42"); reflexivity.
Defined.

(** ** The echo of the bot's own edit *)

Lemma annotation_has_no_command (m : string -> option string) (sender d : string) :
  anchored m ->
  one_line_commands m ->
  PyStr.mem PyStr.newline sender = false ->
  PyStr.any_map m (PyStr.lines (annotation m sender d)) = false.
Proof.
  intros Hanch Hone Hs. rewrite (annotation_lines m sender d Hone Hs).
  unfold PyStr.any_map. simpl. rewrite (Hanch "" eq_refl). simpl.
  apply not_true_is_false. intros Hex.
  apply existsb_exists in Hex. destruct Hex as [l [Hin Ht]].
  apply in_map_iff in Hin. destruct Hin as [c [<- _]].
  rewrite (Hanch _ (proj1 (segment_line_not_prefixed sender c))) in Ht.
  discriminate.
Qed.

(** X6. The [edited] event that follows the bot's own write (old body:
    the comment as the first event had it; new body: the same followed
    by the update) starts no second round. With an anchored matcher and
    a first sender whose login has no line break, the handler finds no
    command in the appended update and makes no remote call, even when
    the sender of the echo passes the permission check. *)
Theorem echo_of_own_edit_is_ignored
  (check : string -> bool) (m : string -> option string)
  (first_sender d new u : string) (echo : EventInfo) (w : World) :
  let rb := ei_raw_request_body echo in
  let run := EESSIBotSoftwareLayer.handle_issue_comment_event check m echo w in
  anchored m ->
  one_line_commands m ->
  PyStr.mem PyStr.newline first_sender = false ->
  fst (EESSIBotSoftwareLayer.search_commands m first_sender (PyStr.lines d) "" w) = Ok u ->
  rb_action rb = "edited" ->
  rb_changes_body_from rb = Some new ->
  rb_comment_body rb = new ++ u ->
  fst (EESSIBotSoftwareLayer.determine_diff rb w) = Ok (u, Some (new ++ u))
  /\ fst run = Ok tt
  /\ fetch_calls (snd run) = fetch_calls w
  /\ edit_calls (snd run) = edit_calls w
  /\ store (snd run) = store w.
Proof.
  intros rb run Hanch Hone Hs Hu Ha Hc Hb.
  apply search_commands_result in Hu. subst u.
  set (u := annotation m first_sender d) in *.
  assert (Hd : fst (EESSIBotSoftwareLayer.determine_diff rb w) = Ok (u, Some (new ++ u))).
  { rewrite (determine_diff_edited rb w new Ha Hc), Hb.
    rewrite slice_from_append, length_append.
    destruct u as [|c r]; [now rewrite Nat.add_0_r, Nat.ltb_irrefl|].
    rewrite (proj2 (Nat.ltb_lt _ _)); [reflexivity|]. simpl. lia. }
  split; [exact Hd|].
  assert (Hrun : logs_only (EESSIBotSoftwareLayer.handle_issue_comment_event check m echo)
                           (Ok tt)).
  { apply (handler_empty_update check m echo w u (Some (new ++ u)) Hd).
    unfold annotation at 1. unfold u.
    now rewrite (no_commands_found m _
                   (annotation_has_no_command m first_sender d Hanch Hone Hs)). }
  destruct (logs_only_frame _ _ w Hrun) as (Hr & Hst & Hf & He & _).
  fold run in Hr, Hst, Hf, He. repeat split; assumption.
Qed.

Lemma echo_of_own_edit_is_ignored_witness :
  let u := nl ++ "- received bot command `bot: rebuild` from `contributor`" in
  let echo := Samples.comment_event "edited" "eessi-bot" ("bot: rebuild" ++ u)
                (Some "bot: rebuild") in
  let run := EESSIBotSoftwareLayer.handle_issue_comment_event
               (fun _ => false) tools_commands.get_bot_command echo Samples.calm in
  fst run = Ok tt /\ fetch_calls (snd run) = 0 /\ edit_calls (snd run) = 0.
Proof.
  intros u echo run.
  destruct (echo_of_own_edit_is_ignored (fun _ => false) tools_commands.get_bot_command
              "contributor" "bot: rebuild" "bot: rebuild" u echo Samples.calm
              get_bot_command_is_anchored get_bot_command_one_line
              eq_refl eq_refl eq_refl eq_refl eq_refl)
    as (_ & Hr & Hf & He & _).
  exact (conj Hr (conj Hf He)).
Defined.

(** ** Pull request events *)

Lemma join_split (c : ascii) (s : string) :
  PyStr.join (String c "") (PyStr.split c s) = s.
Proof.
  induction s as [|x r IH]; [reflexivity|].
  cbn [PyStr.split]. destruct (Ascii.eqb_spec x c) as [->|Hx].
  - destruct (PyStr.split c r) as [|h t] eqn:E; [now destruct (split_not_nil c r)|].
    change (PyStr.join (String c "") ("" :: h :: t))
      with ("" ++ String c "" ++ PyStr.join (String c "") (h :: t)).
    now rewrite IH.
  - destruct (PyStr.split c r) as [|h t] eqn:E; [now destruct (split_not_nil c r)|].
    rewrite <- IH. destruct t; reflexivity.
Qed.

Lemma split_without_separator (c : ascii) (s : string) :
  PyStr.mem c s = false -> PyStr.split c s = [s].
Proof.
  intros H. rewrite <- (append_nil_r s) at 1.
  rewrite (split_append c s "" H). simpl. now rewrite append_nil_r.
Qed.

Lemma arch_tail_of_path (os rest : string) :
  PyStr.mem "/"%char os = false ->
  EESSIBotSoftwareLayer.arch_tail (os ++ "/" ++ rest) = rest.
Proof.
  intros H. unfold EESSIBotSoftwareLayer.arch_tail.
  change (os ++ "/" ++ rest) with (os ++ String "/"%char rest).
  rewrite (split_append "/"%char os (String "/"%char rest) H).
  cbn [PyStr.split]. rewrite Ascii.eqb_refl. cbn [tl].
  apply join_split.
Qed.

(** X7. The architecture shown in the comment on an opened pull request
    is the target without its first path component: [os/rest] is shown
    as [rest], whatever [rest] holds, and a target without a slash is
    shown as the empty string. *)
Theorem arch_tail_drops_first_component (os rest : string) :
  PyStr.mem "/"%char os = false ->
  EESSIBotSoftwareLayer.arch_tail (os ++ "/" ++ rest) = rest
  /\ EESSIBotSoftwareLayer.arch_tail os = "".
Proof.
  intros H. split; [exact (arch_tail_of_path os rest H)|].
  unfold EESSIBotSoftwareLayer.arch_tail.
  now rewrite (split_without_separator _ _ H).
Qed.

Lemma arch_tail_drops_first_component_witness :
  EESSIBotSoftwareLayer.arch_tail ("linux" ++ "/" ++ "x86_64/intel/haswell")
  = "x86_64/intel/haswell"
  /\ EESSIBotSoftwareLayer.arch_tail "linux" = "".
Proof. apply (arch_tail_drops_first_component "linux" "x86_64/intel/haswell"). reflexivity. Defined.

Lemma fold_left_append {A} (f : A -> string) (xs : list A) :
  forall acc,
    fold_left (fun comment x => comment ++ f x) xs acc
    = acc ++ concat_all (map f xs).
Proof.
  induction xs as [|x xs IH]; intros acc; simpl.
  - now rewrite append_nil_r.
  - rewrite IH. now rewrite append_assoc.
Qed.

Lemma comment_of_targets (targets : list (string * list string)) :
  forall heading,
    fold_left
      (fun comment '(arch, repo_ids) =>
         fold_left
           (fun comment repo_id =>
              comment ++ (nl ++ "- arch `" ++ EESSIBotSoftwareLayer.arch_tail arch
                          ++ "` for repo `" ++ repo_id ++ "`"))
           repo_ids comment)
      targets heading
    = heading ++ concat_all (map (append nl) (target_lines targets)).
Proof.
  induction targets as [|[arch ids] rest IH]; intros heading; cbn [fold_left].
  - unfold target_lines. simpl. now rewrite append_nil_r.
  - rewrite IH.
    pose proof (fold_left_append (fun repo_id => nl ++ target_line arch repo_id)
                  ids heading) as E.
    unfold target_line in E. rewrite E. clear E.
    unfold target_lines. cbn [flat_map].
    rewrite map_app, concat_all_app, map_map, append_assoc. reflexivity.
Qed.

Lemma lines_after_breaks (ls : list string) :
  Forall (fun l => PyStr.mem PyStr.newline l = false) ls ->
  PyStr.lines (concat_all (map (append nl) ls)) = "" :: ls.
Proof.
  intros H. induction H as [|l ls Hl Hls IH]; [reflexivity|].
  cbn [map concat_all fold_right].
  fold (concat_all (map (append nl) ls)).
  unfold nl at 1. cbn [append].
  unfold PyStr.lines in *. cbn [PyStr.split]. rewrite Ascii.eqb_refl.
  rewrite (split_append _ _ _ Hl), IH. now rewrite append_nil_r.
Qed.

Lemma split_pieces_without (c sep : ascii) (s : string) :
  PyStr.mem c s = false ->
  Forall (fun p => PyStr.mem c p = false) (PyStr.split sep s).
Proof.
  induction s as [|x r IH]; intros H.
  - repeat constructor.
  - simpl in H. apply orb_false_iff in H. destruct H as [Hx Hr].
    specialize (IH Hr). cbn [PyStr.split].
    destruct (Ascii.eqb x sep).
    + constructor; [reflexivity | exact IH].
    + destruct (PyStr.split sep r) as [|h t]; [repeat constructor; simpl; now rewrite Hx|].
      inversion IH as [|? ? Hh Ht]; subst.
      constructor; [simpl; now rewrite Hx, Hh | exact Ht].
Qed.

Lemma arch_tail_one_line (arch : string) :
  PyStr.mem PyStr.newline arch = false ->
  PyStr.mem PyStr.newline (EESSIBotSoftwareLayer.arch_tail arch) = false.
Proof.
  intros H. unfold EESSIBotSoftwareLayer.arch_tail.
  apply join_one_line; [reflexivity|].
  pose proof (split_pieces_without PyStr.newline "/"%char arch H) as Hall.
  destruct (PyStr.split "/"%char arch) as [|h t]; [constructor|].
  now inversion Hall.
Qed.

Lemma target_lines_one_line (targets : list (string * list string)) :
  Forall (fun '(arch, ids) =>
            PyStr.mem PyStr.newline arch = false
            /\ Forall (fun id => PyStr.mem PyStr.newline id = false) ids) targets ->
  Forall (fun l => PyStr.mem PyStr.newline l = false) (target_lines targets).
Proof.
  intros H. induction H as [|[arch ids] rest [Ha Hids] Hrest IH]; [constructor|].
  unfold target_lines in *. cbn [flat_map]. apply Forall_app. split; [|exact IH].
  apply Forall_map. apply Forall_impl with (2 := Hids).
  intros id Hid. unfold target_line.
  now rewrite !mem_append, (arch_tail_one_line arch Ha), Hid.
Qed.

(** X8. For an [opened] pull request event exactly one comment is
    created on the pull request: the heading naming the app, followed by
    one line per architecture and repository of the target map, in the
    order of the map, each after a line break. When the app name, the
    architectures and the repository ids hold no line break, the comment
    has one line more than the map has repositories. *)
Theorem opened_event_comment
  (check_build : PullRequest -> EventInfo -> bool)
  (app_name : string) (targets : list (string * list string))
  (ei : EventInfo) (pr : PullRequest) (w : World) :
  let run := EESSIBotSoftwareLayer.handle_pull_request_event
               check_build app_name targets ei pr w in
  let heading := "Instance `" ++ app_name ++ "` is configured to build:" in
  let comment := heading ++ concat_all (map (append nl) (target_lines targets)) in
  ei_action ei = "opened" ->
  fst run = Ok tt
  /\ tasks (snd run) = (tasks w ++ [CreateIssueComment (pr_number pr) comment])%list
  /\ store (snd run) = store w
  /\ (PyStr.mem PyStr.newline app_name = false ->
      Forall (fun '(arch, ids) =>
                PyStr.mem PyStr.newline arch = false
                /\ Forall (fun id => PyStr.mem PyStr.newline id = false) ids) targets ->
      PyStr.lines comment = heading :: target_lines targets
      /\ List.length (PyStr.lines comment)
         = S (list_sum (map (fun t => List.length (snd t)) targets))).
Proof.
  intros run heading comment Ha. subst run.
  unfold EESSIBotSoftwareLayer.handle_pull_request_event,
    EESSIBotSoftwareLayer.handle_pull_request_opened_event.
  rewrite Ha. simpl String.eqb.
  rewrite (comment_of_targets targets). fold heading. fold comment.
  unfold bind, EESSIBotSoftwareLayer.self_log, log, call_task. cbn [fst snd].
  split; [reflexivity|]. split; [reflexivity|]. split; [reflexivity|].
  intros Happ Htargets.
  assert (Hlines : PyStr.lines comment = heading :: target_lines targets).
  { unfold comment, PyStr.lines.
    rewrite split_append.
    - fold (PyStr.lines (concat_all (map (append nl) (target_lines targets)))).
      rewrite (lines_after_breaks _ (target_lines_one_line targets Htargets)).
      now rewrite append_nil_r.
    - unfold heading. now rewrite !mem_append, Happ. }
  split; [exact Hlines|].
  rewrite Hlines. cbn [List.length]. f_equal.
  unfold target_lines. clear. induction targets as [|[arch ids] rest IH]; [reflexivity|].
  cbn [flat_map map list_sum fold_right snd]. now rewrite length_app, length_map, IH.
Qed.

Lemma opened_event_comment_witness :
  let run := EESSIBotSoftwareLayer.handle_pull_request_event
               (fun _ _ => false) "eessi-bot" sample_targets
               (pull_request_event "opened") Samples.pr7 Samples.calm in
  fst run = Ok tt
  /\ tasks (snd run)
     = [CreateIssueComment 7
          ("Instance `eessi-bot` is configured to build:"
             ++ nl ++ "- arch `x86_64/generic` for repo `eessi-2023.06`"
             ++ nl ++ "- arch `x86_64/generic` for repo `eessi.io-2023.06`"
             ++ nl ++ "- arch `aarch64/generic` for repo `eessi-2023.06`")]
  /\ List.length
       (PyStr.lines
          ("Instance `eessi-bot` is configured to build:"
             ++ concat_all (map (append nl) (target_lines sample_targets)))) = 4.
Proof.
  intros run.
  destruct (opened_event_comment (fun _ _ => false) "eessi-bot" sample_targets
              (pull_request_event "opened") Samples.pr7 Samples.calm eq_refl)
    as (Hr & Ht & _ & Hl).
  destruct Hl as [_ Hn].
  - reflexivity.
  - repeat constructor.
  - exact (conj Hr (conj Ht Hn)).
Defined.

Ltac run_pr_handler :=
  unfold bind, key, ret, raise, EESSIBotSoftwareLayer.self_log, log, call_task;
  cbn -[append last fold_left].

(** X9. A [pull_request] event whose action has no handler method
    (anything but [labeled] and [opened]) is only logged: the handler
    returns normally, calls no task, creates no comment, and its last log
    line names the action. *)
Theorem unhandled_pr_action_is_logged
  (check_build : PullRequest -> EventInfo -> bool)
  (app_name : string) (targets : list (string * list string))
  (ei : EventInfo) (pr : PullRequest) (w : World) :
  let run := EESSIBotSoftwareLayer.handle_pull_request_event
               check_build app_name targets ei pr w in
  ei_action ei <> "labeled" ->
  ei_action ei <> "opened" ->
  fst run = Ok tt
  /\ tasks (snd run) = tasks w
  /\ store (snd run) = store w
  /\ last (logs (snd run)) ""
     = "[handle_pull_request_event]: No handler for PR action '" ++ ei_action ei ++ "'".
Proof.
  intros run Hl Ho. subst run.
  unfold EESSIBotSoftwareLayer.handle_pull_request_event.
  rewrite (proj2 (String.eqb_neq _ _) Hl), (proj2 (String.eqb_neq _ _) Ho).
  run_pr_handler. repeat split. now rewrite last_last.
Qed.

Lemma unhandled_pr_action_is_logged_witness :
  let run := EESSIBotSoftwareLayer.handle_pull_request_event
               (fun _ _ => true) "eessi-bot" sample_targets
               (pull_request_event "closed") Samples.pr7 Samples.calm in
  fst run = Ok tt /\ tasks (snd run) = [].
Proof.
  intros run.
  destruct (unhandled_pr_action_is_logged (fun _ _ => true) "eessi-bot" sample_targets
              (pull_request_event "closed") Samples.pr7 Samples.calm)
    as (Hr & Ht & _).
  - simpl. discriminate.
  - simpl. discriminate.
  - exact (conj Hr Ht).
Defined.

(** X10. A [labeled] event that carries no label fails with [KeyError]
    at line 173, before the permission check: no build is submitted and
    nothing is deployed, whatever the permission check would answer. *)
Theorem labeled_without_label_raises
  (check_build : PullRequest -> EventInfo -> bool)
  (app_name : string) (targets : list (string * list string))
  (ei : EventInfo) (pr : PullRequest) (w : World) :
  let run := EESSIBotSoftwareLayer.handle_pull_request_event
               check_build app_name targets ei pr w in
  ei_action ei = "labeled" ->
  rb_label_name (ei_raw_request_body ei) = None ->
  fst run = Raised (KeyError "label")
  /\ tasks (snd run) = tasks w
  /\ store (snd run) = store w.
Proof.
  intros run Ha Hl. subst run.
  unfold EESSIBotSoftwareLayer.handle_pull_request_event,
    EESSIBotSoftwareLayer.handle_pull_request_labeled_event.
  rewrite Ha, Hl. simpl String.eqb. run_pr_handler. repeat split.
Qed.

Lemma labeled_without_label_raises_witness :
  let run := EESSIBotSoftwareLayer.handle_pull_request_event
               (fun _ _ => true) "eessi-bot" sample_targets
               (pull_request_event "labeled") Samples.pr7 Samples.calm in
  fst run = Raised (KeyError "label") /\ tasks (snd run) = [].
Proof.
  intros run.
  destruct (labeled_without_label_raises (fun _ _ => true) "eessi-bot" sample_targets
              (pull_request_event "labeled") Samples.pr7 Samples.calm eq_refl eq_refl)
    as (Hr & Ht & _).
  exact (conj Hr Ht).
Defined.

(** X11. No [pull_request] event, whatever its action and label, makes
    the handler fetch or edit an issue comment, and none leads to more
    than one call of a task: the bodies of the comments and the counts of
    fetches and edits are as before, and the recorded calls grow by at
    most one. *)
Theorem pr_events_leave_comments_alone
  (check_build : PullRequest -> EventInfo -> bool)
  (app_name : string) (targets : list (string * list string))
  (ei : EventInfo) (pr : PullRequest) (w : World) :
  let run := EESSIBotSoftwareLayer.handle_pull_request_event
               check_build app_name targets ei pr w in
  store (snd run) = store w
  /\ fetch_calls (snd run) = fetch_calls w
  /\ edit_calls (snd run) = edit_calls w
  /\ (exists called,
         tasks (snd run) = (tasks w ++ called)%list /\ List.length called <= 1).
Proof.
  intros run. subst run.
  unfold EESSIBotSoftwareLayer.handle_pull_request_event,
    EESSIBotSoftwareLayer.handle_pull_request_labeled_event,
    EESSIBotSoftwareLayer.handle_pull_request_opened_event.
  destruct (ei_action ei =? "labeled").
  - destruct (rb_label_name (ei_raw_request_body ei)) as [label|].
    + unfold key. rewrite bind_ret_l.
      destruct (label =? "bot:build").
      * destruct (check_build pr ei); run_pr_handler; repeat split;
          [exists [SubmitBuildJobs (pr_number pr)] | exists []];
          rewrite ?app_nil_r; split; simpl; auto.
      * destruct (label =? "bot:deploy"); run_pr_handler; repeat split;
          [exists [DeployBuiltArtefacts (pr_number pr)] | exists []];
          rewrite ?app_nil_r; split; simpl; auto.
    + run_pr_handler. repeat split.
      exists []. rewrite app_nil_r. split; simpl; auto.
  - destruct (ei_action ei =? "opened"); run_pr_handler; repeat split.
    + eexists [_]. split; [reflexivity | simpl; auto].
    + exists []. rewrite app_nil_r. split; simpl; auto.
Qed.

(** * The entry points *)

(** X12. In cron mode (no event file given, [--cron] set) the [main] of
    the event handler fails: once the configuration is read and the
    connection made, it reads the local variable [app], which only the
    other two branches assign, and raises [UnboundLocalError]. No app is
    created, nothing is logged as running in cron mode, nothing is
    served. *)
Theorem event_handler_cron_mode_raises
  (App Event : Type) (read_config connect : M unit) (create_app : M App)
  (read_event_from_json : string -> M Event) (get_event_info : Event -> M EventInfo)
  (handle_event : App -> EventInfo -> M unit) (app_log : App -> string -> M unit)
  (start : App -> Z -> M unit) (opts : Opts) (w w1 : World) :
  (read_config ;; connect) w = (Ok tt, w1) ->
  PyStr.truthy (opts_file opts) = false ->
  opts_cron opts = true ->
  event_handler.main App Event read_config connect create_app read_event_from_json
    get_event_info handle_event app_log start opts w
  = (Raised (UnboundLocalError "app"), w1).
Proof.
  intros Hstart Hfile Hcron. unfold event_handler.main.
  unfold bind in *.
  destruct (read_config w) as [[[]|e] w0]; [|discriminate].
  destruct (connect w0) as [[[]|e] w0']; [|discriminate].
  injection Hstart as <-.
  rewrite Hcron. destruct (opts_file opts) as [[|c r]|]; try reflexivity.
  discriminate.
Qed.

Lemma event_handler_cron_mode_raises_witness :
  event_handler.main unit unit (log "configuration read") (log "connected")
    (ret tt) (fun _ => ret tt) (fun _ => ret (Samples.labeled_event "bot:build"))
    (fun _ _ => ret tt) (fun _ msg => log msg) (fun _ _ => ret tt)
    {| opts_file := None; opts_cron := true; opts_port := 3000 |} Samples.calm
  = (Raised (UnboundLocalError "app"),
     add_log (add_log Samples.calm "configuration read") "connected").
Proof.
  apply event_handler_cron_mode_raises; reflexivity.
Defined.



(** * The failing pull request of the tests *)









